(** * PennyWise dashboard: the summary-refresh component and its derived metrics

    A shallow embedding of [frontend/src/components/Dashboard.tsx].

    - JavaScript numbers are IEEE 754 binary64 values: they are modelled by
      Rocq's primitive [float], whose operations are the same roundings.
    - A parsed response body is a [JSON] value; the TypeScript interface
      [SummaryData] is a record, and [encode] gives the object a well-shaped
      body parses to.
    - The component's three [useState] cells form [State]; the asynchronous
      functions [fetchData] and [generateDemoData] are split at their [await]
      points, and [step] interleaves them with timer ticks, clicks and unmount.
*)

From Stdlib Require Import Floats ZArith Ascii String List Bool Lia DecimalString.
Import ListNotations.

#[local] Set Warnings "-register-all".
#[local] Open Scope string_scope.

(* ================================================================== *)
(** ** JavaScript values reaching the component *)
(* ================================================================== *)

(** What [response.json()] can resolve to. *)
Inductive JSON : Type :=
| JNull
| JBool (b : bool)
| JNum (x : float)
| JStr (s : string)
| JArr (items : list JSON)
| JObj (fields : list (string * JSON)).

(** What a [catch (err)] clause can receive: an [Error] instance with its
    [message], or any other thrown value ([err instanceof Error] is false). *)
Inductive Thrown : Type :=
| ErrorObj (message : string)
| NonError.

(** [ToBoolean] on a number: [+0], [-0] and [NaN] are falsy. *)
Definition number_truthy (x : float) : bool :=
  negb (PrimFloat.is_zero x || PrimFloat.is_nan x).

(** [ToBoolean] on a string: only the empty string is falsy. *)
Definition string_truthy (s : string) : bool :=
  match s with
  | EmptyString => false
  | String _ _ => true
  end.

(** [ToBoolean] on a parsed JSON value. *)
Definition truthy (v : JSON) : bool :=
  match v with
  | JNull => false
  | JBool b => b
  | JNum x => number_truthy x
  | JStr s => string_truthy s
  | JArr _ => true
  | JObj _ => true
  end.

(** The own property [k] of a parsed object: [JSON.parse] keeps the last of
    duplicate keys. *)
Fixpoint lookup_last (k : string) (fields : list (string * JSON)) : option JSON :=
  match fields with
  | [] => None
  | (k', v) :: rest =>
      match lookup_last k rest with
      | Some v' => Some v'
      | None => if String.eqb k k' then Some v else None
      end
  end.

(** [v.k] for the property names the component reads (none is [length] or an
    index): [None] is [undefined].  Primitives and arrays have no such
    property. *)
Definition get_field (v : JSON) (k : string) : option JSON :=
  match v with
  | JObj fields => lookup_last k fields
  | _ => None
  end.

(** [x === 0] for a value read from a property. *)
Definition strict_eq_zero (v : option JSON) : bool :=
  match v with
  | Some (JNum x) => PrimFloat.eqb x 0
  | _ => false
  end.

(* ================================================================== *)
(** ** [Number.prototype.toFixed] *)
(* ================================================================== *)

Definition decimal_digits (n : Z) : string :=
  NilZero.string_of_uint (N.to_uint (Z.to_N n)).

Fixpoint zeros (k : nat) : string :=
  match k with
  | O => EmptyString
  | S k' => String "0"%char (zeros k')
  end.

(** The integer [n] for which [n / 10^f - m * 2^e] is closest to zero, the
    larger one when two are equally close. *)
Definition nearest_scaled (f : nat) (m : positive) (e : Z) : Z :=
  let num := (Z.pos m * 10 ^ Z.of_nat f)%Z in
  if (0 <=? e)%Z then (num * 2 ^ e)%Z
  else ((2 * num + 2 ^ (- e)) / 2 ^ (1 - e))%Z.

(** [m * 2^e >= 10^21]. *)
Definition at_least_1e21 (m : positive) (e : Z) : bool :=
  if (0 <=? e)%Z then (10 ^ 21 <=? Z.pos m * 2 ^ e)%Z
  else (10 ^ 21 * 2 ^ (- e) <=? Z.pos m)%Z.

(** Steps 10.b to 10.d of [toFixed]: the digits of [n] with a decimal point
    before the last [f] of them. *)
Definition fixed_text (f : nat) (n : Z) : string :=
  let m := decimal_digits n in
  match f with
  | O => m
  | S _ =>
      let m' := if (String.length m <=? f)%nat
                then (zeros (f + 1 - String.length m) ++ m)%string
                else m in
      let k := String.length m' in
      (substring 0 (k - f) m' ++ "." ++ substring (k - f) f m')%string
  end.

Section NumberFormat.

(** [Number::toString] on a finite value of magnitude at least [10^21]
    (exponential notation).  ECMAScript leaves its last digit to the engine,
    so it is a parameter of the formatting functions. *)
Variable Number_toString : float -> string.

(** [x.toFixed(f)] for [0 <= f <= 100], the only range the component uses
    (0, 1, 2 and 4). *)
Definition toFixed (f : nat) (x : float) : string :=
    match Prim2SF x with
    | S754_nan => "NaN"
    | S754_infinity s => if s then "-Infinity" else "Infinity"
    | S754_zero _ => fixed_text f 0
    | S754_finite s m e =>
        let sign := if s then "-" else EmptyString in
        if at_least_1e21 m e then (sign ++ Number_toString (PrimFloat.abs x))%string
        else (sign ++ fixed_text f (nearest_scaled f m e))%string
    end.

End NumberFormat.

(* ================================================================== *)
(** ** The [SummaryData] interface *)
(* ================================================================== *)

(** TypeScript's [number] is a binary64 value, also for the request counts. *)
Module Daily.
Record t : Type := { date : string; cost : float; requests : float; saved : float }.
End Daily.

Module Provider.
Record t : Type := { provider : string; cost : float; requests : float }.
End Provider.

Module User.
Record t : Type := { user_id : string; cost : float; requests : float }.
End User.

Record SummaryData : Type := {
  total_requests : float;
  total_cost : float;
  cost_saved : float;
  cache_hit_rate : float;
  avg_cost_per_request : float;
  daily_breakdown : list Daily.t;
  provider_breakdown : list Provider.t;
  top_users : list User.t
}.

(** The value a body of the [SummaryData] shape parses to. *)
Definition encode_daily (e : Daily.t) : JSON :=
  JObj [("date", JStr (Daily.date e)); ("cost", JNum (Daily.cost e));
        ("requests", JNum (Daily.requests e)); ("saved", JNum (Daily.saved e))].

Definition encode_provider (e : Provider.t) : JSON :=
  JObj [("provider", JStr (Provider.provider e)); ("cost", JNum (Provider.cost e));
        ("requests", JNum (Provider.requests e))].

Definition encode_user (e : User.t) : JSON :=
  JObj [("user_id", JStr (User.user_id e)); ("cost", JNum (User.cost e));
        ("requests", JNum (User.requests e))].

Definition encode (d : SummaryData) : JSON :=
  JObj [("total_requests", JNum (total_requests d));
        ("total_cost", JNum (total_cost d));
        ("cost_saved", JNum (cost_saved d));
        ("cache_hit_rate", JNum (cache_hit_rate d));
        ("avg_cost_per_request", JNum (avg_cost_per_request d));
        ("daily_breakdown", JArr (map encode_daily (daily_breakdown d)));
        ("provider_breakdown", JArr (map encode_provider (provider_breakdown d)));
        ("top_users", JArr (map encode_user (top_users d)))].

(** The shape check of the specification's [DecodeError]: a value has the
    [SummaryData] shape when every declared property is present with the
    declared type.  The component itself never runs such a check; this
    definition only says which bodies the specification calls malformed. *)
Definition bind {A B : Type} (o : option A) (k : A -> option B) : option B :=
  match o with
  | Some a => k a
  | None => None
  end.

Notation "x <- o ;; k" := (bind o (fun x => k))
  (at level 61, o at next level, right associativity).

Definition as_number (v : option JSON) : option float :=
  match v with Some (JNum x) => Some x | _ => None end.

Definition as_string (v : option JSON) : option string :=
  match v with Some (JStr s) => Some s | _ => None end.

Definition as_array (v : option JSON) : option (list JSON) :=
  match v with Some (JArr l) => Some l | _ => None end.

Fixpoint traverse {A B : Type} (f : A -> option B) (l : list A) : option (list B) :=
  match l with
  | [] => Some []
  | a :: rest => b <- f a ;; bs <- traverse f rest ;; Some (b :: bs)
  end.

Definition decode_daily (v : JSON) : option Daily.t :=
  d <- as_string (get_field v "date") ;;
  c <- as_number (get_field v "cost") ;;
  r <- as_number (get_field v "requests") ;;
  s <- as_number (get_field v "saved") ;;
  Some {| Daily.date := d; Daily.cost := c; Daily.requests := r; Daily.saved := s |}.

Definition decode_provider (v : JSON) : option Provider.t :=
  p <- as_string (get_field v "provider") ;;
  c <- as_number (get_field v "cost") ;;
  r <- as_number (get_field v "requests") ;;
  Some {| Provider.provider := p; Provider.cost := c; Provider.requests := r |}.

Definition decode_user (v : JSON) : option User.t :=
  u <- as_string (get_field v "user_id") ;;
  c <- as_number (get_field v "cost") ;;
  r <- as_number (get_field v "requests") ;;
  Some {| User.user_id := u; User.cost := c; User.requests := r |}.

Definition decode (v : JSON) : option SummaryData :=
  n <- as_number (get_field v "total_requests") ;;
  c <- as_number (get_field v "total_cost") ;;
  s <- as_number (get_field v "cost_saved") ;;
  h <- as_number (get_field v "cache_hit_rate") ;;
  a <- as_number (get_field v "avg_cost_per_request") ;;
  ds <- as_array (get_field v "daily_breakdown") ;;
  ps <- as_array (get_field v "provider_breakdown") ;;
  us <- as_array (get_field v "top_users") ;;
  daily <- traverse decode_daily ds ;;
  providers <- traverse decode_provider ps ;;
  users <- traverse decode_user us ;;
  Some {| total_requests := n; total_cost := c; cost_saved := s;
          cache_hit_rate := h; avg_cost_per_request := a;
          daily_breakdown := daily; provider_breakdown := providers;
          top_users := users |}.

Definition matches_SummaryData (v : JSON) : bool :=
  match decode v with Some _ => true | None => false end.

(* ================================================================== *)
(** ** Component state: the three [useState] cells *)
(* ================================================================== *)

Record State : Type := {
  data : JSON;              (* SummaryData | null, as it is at run time *)
  loading : bool;
  error : option string     (* string | null *)
}.

(** [useState(null)], [useState(true)], [useState(null)]. *)
Definition initial_state : State :=
  {| data := JNull; loading := true; error := None |}.

Definition setData (v : JSON) (s : State) : State :=
  {| data := v; loading := loading s; error := error s |}.

Definition setLoading (b : bool) (s : State) : State :=
  {| data := data s; loading := b; error := error s |}.

Definition setError (e : option string) (s : State) : State :=
  {| data := data s; loading := loading s; error := e |}.

(* ================================================================== *)
(** ** The Fetch API as the component sees it *)
(* ================================================================== *)

(** A received response: its status line and what [response.json()] settles
    to (a rejection when the body is not JSON text). *)
Record Response : Type := {
  status : Z;
  json : Thrown + JSON
}.

(** [response.ok]: the status is in the range 200 to 299. *)
Definition ok (r : Response) : bool :=
  ((200 <=? status r) && (status r <=? 299))%Z.

(** How the promise returned by [fetch] settles: it rejects only when no
    response was received. *)
Inductive Settled : Type :=
| Rejected (err : Thrown)
| Resolved (response : Response).

(* ================================================================== *)
(** ** [fetchData] *)
(* ================================================================== *)

(** The body of the [try] block after the request settles: [inl] is the
    value that reaches [catch], [inr] is [result]. *)
Definition fetchData_try (r : Settled) : Thrown + JSON :=
  match r with
  | Rejected err => inl err
  | Resolved response =>
      if negb (ok response) then inl (ErrorObj "Failed to fetch data")
      else json response
  end.

(** [err instanceof Error ? err.message : 'Failed to load data']. *)
Definition catch_message (err : Thrown) : string :=
  match err with
  | ErrorObj message => message
  | NonError => "Failed to load data"
  end.

(** The state updates of [fetchData] once its request has settled: the rest
    of [try], or [catch], and then [finally]. *)
Definition fetchData_finish (r : Settled) (s : State) : State :=
  let s' :=
    match fetchData_try r with
    | inr result => setError None (setData result s)
    | inl err => setError (Some (catch_message err)) s
    end in
  setLoading false s'.

(* ================================================================== *)
(** ** What the component renders *)
(* ================================================================== *)

(** The four [return] statements of the component, in order. *)
Inductive View : Type :=
| LoadingScreen                      (* "Loading..." *)
| ErrorScreen (message : string)     (* the message, a hint and [Retry] *)
| WelcomeScreen                      (* "No data yet", [Generate Demo Data] *)
| DashboardScreen (summary : JSON).  (* header, metrics, charts, ROI *)

(** [if (error)]: [null] and the empty string are falsy. *)
Definition error_truthy (e : option string) : bool :=
  match e with
  | Some message => string_truthy message
  | None => false
  end.

(** The chain of tests of lines 68, 76 and 93, which selects the [return]
    that is reached.  [DashboardScreen v] says that the last one is reached
    with [data = v].  For a [v] of the [SummaryData] shape its JSX is the
    dashboard; for another truthy value the property reads inside that JSX
    (such as [data.total_cost.toFixed(2)], line 155) can throw, which [View]
    does not record. *)
Definition render (s : State) : View :=
  if loading s && negb (truthy (data s)) then LoadingScreen
  else if error_truthy (error s) then
    ErrorScreen (match error s with Some message => message | None => EmptyString end)
  else if negb (truthy (data s))
          || strict_eq_zero (get_field (data s) "total_requests")
  then WelcomeScreen
  else DashboardScreen (data s).

Inductive Button : Type :=
| Retry               (* onClick={fetchData}, error screen *)
| Refresh             (* onClick={fetchData}, dashboard header *)
| GenerateDemoData.   (* onClick={generateDemoData}, welcome screen and header *)

(** The buttons present in a view. *)
Definition offers (v : View) (b : Button) : bool :=
  match v, b with
  | ErrorScreen _, Retry => true
  | WelcomeScreen, GenerateDemoData => true
  | DashboardScreen _, Refresh => true
  | DashboardScreen _, GenerateDemoData => true
  | _, _ => false
  end.

(* ================================================================== *)
(** ** Derived metrics shown by the dashboard *)
(* ================================================================== *)

#[local] Open Scope float_scope.

(** Line 111. *)
Definition savingsRate (data : SummaryData) : float :=
  (cost_saved data / (total_cost data + cost_saved data)) * 100.

(** Line 182, before formatting. *)
Definition requests_per_day_avg (data : SummaryData) : float :=
  total_requests data / 30.

(** Line 373, before formatting. *)
Definition annual_projection (data : SummaryData) : float :=
  cost_saved data * 12.

(** Line 385, before formatting. *)
Definition net_annual_savings (data : SummaryData) : float :=
  cost_saved data * 12 - 99 * 12.

(** Line 388, before formatting. *)
Definition roi_multiple (data : SummaryData) : float :=
  (cost_saved data * 12 - 99 * 12) / (99 * 12).

(** Line 353, before formatting. *)
Definition user_avg_per_request (user : User.t) : float :=
  User.cost user / User.requests user.

Section DashboardText.

Variable Number_toString : float -> string.

(** Lines 169 and 367: [{savingsRate.toFixed(1)}%]. *)
Definition savings_rate_text (data : SummaryData) : string :=
  (toFixed Number_toString 1 (savingsRate data) ++ "%")%string.

(** Line 182: [{(data.total_requests / 30).toFixed(0)} per day avg]. *)
Definition per_day_text (data : SummaryData) : string :=
  (toFixed Number_toString 0 (requests_per_day_avg data) ++ " per day avg")%string.

(** Line 373. *)
Definition annual_projection_text (data : SummaryData) : string :=
  ("$" ++ toFixed Number_toString 0 (annual_projection data))%string.

(** Line 385. *)
Definition net_savings_text (data : SummaryData) : string :=
  ("$" ++ toFixed Number_toString 0 (net_annual_savings data))%string.

(** Line 388. *)
Definition roi_text (data : SummaryData) : string :=
  (toFixed Number_toString 0 (roi_multiple data) ++ "x ROI")%string.

End DashboardText.

#[local] Close Scope float_scope.

(* ================================================================== *)
(** ** The running component: state, timer and requests in flight *)
(* ================================================================== *)

Inductive Endpoint : Type :=
| GET_summary       (* fetch(`${API_URL}/v1/summary`) *)
| POST_demo_data.   (* fetch(`${API_URL}/v1/demo-data`, { method: 'POST' }) *)

Record World : Type := {
  state : State;
  mounted : bool;                        (* the component is on screen *)
  interval : bool;                       (* the timer of [setInterval] is armed *)
  inflight : list (nat * Endpoint);      (* requests not settled yet, oldest first *)
  next_request : nat                     (* requests issued so far *)
}.

(** A call of a [useState] setter.  React applies the update to a mounted
    component and drops it when the component has been unmounted; the source
    itself calls its setters without looking. *)
Definition set_state (f : State -> State) (w : World) : World :=
  if mounted w then
    {| state := f (state w); mounted := mounted w; interval := interval w;
       inflight := inflight w; next_request := next_request w |}
  else w.

(** A call of [fetch]: the request is issued and stays in flight until it
    settles. *)
Definition send (ep : Endpoint) (w : World) : World :=
  {| state := state w; mounted := mounted w; interval := interval w;
     inflight := inflight w ++ [(next_request w, ep)];
     next_request := S (next_request w) |}.

Definition settled (id : nat) (w : World) : World :=
  {| state := state w; mounted := mounted w; interval := interval w;
     inflight := filter (fun p => negb (Nat.eqb (fst p) id)) (inflight w);
     next_request := next_request w |}.

Fixpoint pending (id : nat) (l : list (nat * Endpoint)) : option Endpoint :=
  match l with
  | [] => None
  | (id', ep) :: rest => if Nat.eqb id' id then Some ep else pending id rest
  end.

(** [fetchData] up to its first [await]: [setLoading(true)], then the
    request. *)
Definition fetchData (w : World) : World :=
  send GET_summary (set_state (setLoading true) w).

(** [fetchData] from the moment its request has settled. *)
Definition fetchData_resume (r : Settled) (w : World) : World :=
  set_state (fetchData_finish r) w.

(** [generateDemoData] up to its first [await]. *)
Definition generateDemoData (w : World) : World :=
  send POST_demo_data w.

(** [generateDemoData] from the moment the POST has settled: a rejection
    jumps to [catch]; any response, whatever its status, is followed by
    [await fetchData()], which never rejects. *)
Definition generateDemoData_resume (r : Settled) (w : World) : World :=
  match r with
  | Rejected _ => set_state (setError (Some "Failed to generate demo data")) w
  | Resolved _ => fetchData w
  end.

Definition setInterval (w : World) : World :=
  {| state := state w; mounted := mounted w; interval := true;
     inflight := inflight w; next_request := next_request w |}.

Definition clearInterval (w : World) : World :=
  {| state := state w; mounted := mounted w; interval := false;
     inflight := inflight w; next_request := next_request w |}.

(** The effect of [useEffect(..., [])], run once after the first render. *)
Definition useEffect (w : World) : World :=
  setInterval (fetchData w).

(** The component just after it has been mounted. *)
Definition mount : World :=
  useEffect {| state := initial_state; mounted := true; interval := false;
               inflight := []; next_request := 0 |}.

(** Unmounting runs the cleanup returned by the effect. *)
Definition unmount (w : World) : World :=
  let w' := clearInterval w in
  {| state := state w'; mounted := false; interval := interval w';
     inflight := inflight w'; next_request := next_request w' |}.

Definition onClick (b : Button) (w : World) : World :=
  match b with
  | Retry => fetchData w
  | Refresh => fetchData w
  | GenerateDemoData => generateDemoData w
  end.

(** What can happen to a running component. *)
Inductive Event : Type :=
| Tick                                (* the 10 s timer fires *)
| Click (b : Button)
| Settle (id : nat) (r : Settled)     (* a request in flight settles *)
| Unmount.

(** One event; [None] when the event cannot happen in [w].  A world stays
    mounted after every applied body: what React does with a component whose
    render throws is outside this relation, so the results that follow a
    component past a successful response either take bodies of the
    [SummaryData] shape or speak of the state cells only. *)
Definition step (w : World) (e : Event) : option World :=
  match e with
  | Tick => if interval w then Some (fetchData w) else None
  | Click b =>
      if mounted w && offers (render (state w)) b then Some (onClick b w) else None
  | Settle id r =>
      match pending id (inflight w) with
      | Some GET_summary => Some (fetchData_resume r (settled id w))
      | Some POST_demo_data => Some (generateDemoData_resume r (settled id w))
      | None => None
      end
  | Unmount => if mounted w then Some (unmount w) else None
  end.

Fixpoint run (w : World) (es : list Event) : option World :=
  match es with
  | [] => Some w
  | e :: rest =>
      match step w e with
      | Some w' => run w' rest
      | None => None
      end
  end.

Definition reachable (w : World) : Prop :=
  exists es, run mount es = Some w.

(* ================================================================== *)
(** ** The specification's reading of the state *)
(* ================================================================== *)

Inductive Phase : Type := Idle | Loading | Ready | Error.

(** The phase of the specification, read off the three cells: a fetch is in
    progress, or the last one left an error, or it succeeded. *)
Definition phase (s : State) : Phase :=
  if loading s then Loading
  else match error s with
       | Some _ => Error
       | None => Ready
       end.

(** The snapshot is present when [data] is not [null]. *)
Definition snapshot_present (s : State) : bool :=
  match data s with
  | JNull => false
  | _ => true
  end.

(** A response with status 200 whose body parses to [v]. *)
Definition ok_200 (v : JSON) : Settled :=
  Resolved {| status := 200; json := inr v |}.

(** A response with the given status and a body that parses to [v]. *)
Definition with_status (code : Z) (v : JSON) : Settled :=
  Resolved {| status := code; json := inr v |}.

(** The event hands [null] to [setData]: a summary request settles with a
    successful response whose body is the JSON text [null]. *)
Definition applies_null (w : World) (e : Event) : bool :=
  match e with
  | Settle id r =>
      match pending id (inflight w), fetchData_try r with
      | Some GET_summary, inr JNull => true
      | _, _ => false
      end
  | _ => false
  end.

(** No event of the run hands [null] to [setData]. *)
Fixpoint null_free (w : World) (es : list Event) : bool :=
  match es with
  | [] => true
  | e :: rest =>
      negb (applies_null w e)
      && match step w e with
         | Some w' => null_free w' rest
         | None => true
         end
  end.

(* ================================================================== *)
(** ** Scenarios and the readings of the claims that the code refutes *)
(* ================================================================== *)

(** A summary with the given totals and empty breakdowns. *)
Definition summary_of (requests cost saved : float) : SummaryData :=
  {| total_requests := requests; total_cost := cost; cost_saved := saved;
     cache_hit_rate := 0; avg_cost_per_request := 0;
     daily_breakdown := []; provider_breakdown := []; top_users := [] |}.

(** A formatter standing for the engine's exponential notation. *)
Definition exponential_stub (x : float) : string := "1e+21".

(** The state once a fetch has delivered [d] and nothing else is going on. *)
Definition showing (d : SummaryData) : State :=
  {| data := encode d; loading := false; error := None |}.

(** The reading of claim C3 in which the undefined savings rate reaches the
    user as zero percent. *)
Definition zero_spend_shown_as_zero_percent : Prop :=
  forall (N : float -> string) (d : SummaryData),
    PrimFloat.eqb (total_cost d) 0 = true ->
    PrimFloat.eqb (cost_saved d) 0 = true ->
    render (showing d) = DashboardScreen (encode d) ->
    savings_rate_text N d = "0%" \/ savings_rate_text N d = "0.0%".

(** The reading of claim C1: when two summary requests are in flight and the
    newer one settles first, the older response is ignored. *)
Definition newest_request_wins : Prop :=
  forall (w w' : World) (older newer : nat) (v_old v_new : JSON),
    reachable w ->
    pending older (inflight w) = Some GET_summary ->
    pending newer (inflight w) = Some GET_summary ->
    older < newer ->
    run w [Settle newer (ok_200 v_new); Settle older (ok_200 v_old)] = Some w' ->
    data (state w') = v_new.

(** The first fetch has shown 100 requests; a tick starts request 1 and,
    while it is loading, [Refresh] starts request 2. *)
Definition refresh_during_poll : list Event :=
  [Settle 0 (ok_200 (encode (summary_of 100 1 1))); Tick; Click Refresh].

(** The world a run from [mount] ends in. *)
Definition after (es : list Event) : World :=
  match run mount es with
  | Some w => w
  | None => mount
  end.

(** The reading of claim C2 for the view: with a snapshot in hand, a failing
    fetch does not put the failure-only screen in place of the data. *)
Definition failure_keeps_data_on_screen : Prop :=
  forall (s : State) (r : Settled) (err : Thrown),
    snapshot_present s = true ->
    fetchData_try r = inl err ->
    forall message, render (fetchData_finish r s) <> ErrorScreen message.

(** The reading of claim C6: whatever the outcome of the POST, a summary
    request is issued next. *)
Definition refetch_after_every_seed_outcome : Prop :=
  forall (w : World) (id : nat) (r : Settled),
    reachable w ->
    pending id (inflight w) = Some POST_demo_data ->
    exists w',
      step w (Settle id r) = Some w'
      /\ next_request w' = S (next_request w)
      /\ In (next_request w, GET_summary) (inflight w').

(** The first fetch finds no requests, the welcome screen is shown and
    [Generate Demo Data] is clicked: request 1 is the POST. *)
Definition demo_requested : list Event :=
  [Settle 0 (ok_200 (encode (summary_of 0 0 0))); Click GenerateDemoData].

(** The reading of claim C7: a body is applied only if it has the
    [SummaryData] shape. *)
Definition only_well_shaped_bodies_applied : Prop :=
  forall (r : Settled) (v : JSON),
    fetchData_try r = inr v -> matches_SummaryData v = true.

(** The reading of claim C9: in every reachable state, phase [Ready] comes
    with a snapshot. *)
Definition every_ready_state_has_snapshot : Prop :=
  forall w : World,
    reachable w -> phase (state w) = Ready -> snapshot_present (state w) = true.

(** What the component shows for a summary of the [SummaryData] shape when
    no fetch is in progress and no error stands: the welcome screen without
    requests, the dashboard otherwise. *)
Definition view_of_summary (d : SummaryData) : View :=
  if PrimFloat.eqb (total_requests d) 0 then WelcomeScreen
  else DashboardScreen (encode d).

(** The reading of claim C10 for the view: a stored summary without
    requests looks the same as no snapshot at all. *)
Definition empty_snapshot_looks_like_no_snapshot : Prop :=
  forall (w : World) (d : SummaryData),
    reachable w ->
    data (state w) = encode d ->
    PrimFloat.eqb (total_requests d) 0 = true ->
    render (state w) = render (setData JNull (state w)).

(** The first fetch delivers a summary without requests, then the timer
    fires: a refresh is in progress while that summary is held. *)
Definition poll_over_empty_summary : list Event :=
  [Settle 0 (ok_200 (encode (summary_of 0 0 0))); Tick].

(* ================================================================== *)
(** ** Configuration and the rest of the dashboard view *)
(* ================================================================== *)

(** Line 7: [process.env.NEXT_PUBLIC_API_URL || 'http://localhost:8000'].
    [env] is the value of the variable, [None] when it is not set. *)
Definition API_URL (env : option string) : string :=
  match env with
  | Some url => if string_truthy url then url else "http://localhost:8000"
  | None => "http://localhost:8000"
  end.

(** Lines 41 and 55: the two template strings passed to [fetch]. *)
Definition endpoint_url (env : option string) (ep : Endpoint) : string :=
  match ep with
  | GET_summary => API_URL env ++ "/v1/summary"
  | POST_demo_data => API_URL env ++ "/v1/demo-data"
  end.

(** Line 110. *)
Definition COLORS : list string := ["#3b82f6"; "#8b5cf6"; "#ec4899"; "#f59e0b"].

(** Lines 263 and 281: [COLORS[index % COLORS.length]]; [None] is
    [undefined]. *)
Definition color_at (index : nat) : option string :=
  nth_error COLORS (index mod length COLORS).

(** [l.map((x, index) => f x index)], counting from [from]. *)
Fixpoint map_indexed {A B : Type} (f : A -> nat -> B) (from : nat) (l : list A)
  : list B :=
  match l with
  | [] => []
  | a :: rest => f a from :: map_indexed f (S from) rest
  end.

(** [l.slice(-n)]: the start index is [max (length l - n) 0]. *)
Definition slice_last {A : Type} (n : nat) (l : list A) : list A :=
  skipn (length l - n) l.

(** Line 297: the bar chart receives [data.daily_breakdown.slice(-14)]. *)
Definition request_volume (data : SummaryData) : list Daily.t :=
  slice_last 14 (daily_breakdown data).

(** [s.charAt(i)]: the character at [i] as a string, the empty string when
    [i] is out of range.  A character stands for one code unit. *)
Definition charAt (i : nat) (s : string) : string :=
  match String.get i s with
  | Some c => String c EmptyString
  | None => EmptyString
  end.

(** Line 341: [user.user_id.charAt(5) || 'U']. *)
Definition avatar (user_id : string) : string :=
  if string_truthy (charAt 5 user_id) then charAt 5 user_id else "U".

(** One entry of the legend under the pie chart (lines 277 to 287). *)
Record LegendRow : Type := {
  swatch : option string;     (* backgroundColor *)
  legend_name : string;       (* provider.provider *)
  legend_cost : string        (* ${provider.cost.toFixed(2)} *)
}.

(** One row of the table of top users (lines 337 to 355). *)
Record UserRow : Type := {
  row_avatar : string;
  row_user : string;
  row_requests : string;
  row_cost : string;
  row_avg : string
}.

Section DashboardRows.

Variable Number_toString : float -> string.

(** [Number.prototype.toLocaleString], which depends on the locale of the
    browser. *)
Variable toLocaleString : float -> string.

Definition legend (data : SummaryData) : list LegendRow :=
  map_indexed
    (fun provider idx =>
       {| swatch := color_at idx;
          legend_name := Provider.provider provider;
          legend_cost := "$" ++ toFixed Number_toString 2 (Provider.cost provider) |})
    0 (provider_breakdown data).

Definition user_row (user : User.t) : UserRow :=
  {| row_avatar := avatar (User.user_id user);
     row_user := User.user_id user;
     row_requests := toLocaleString (User.requests user);
     row_cost := "$" ++ toFixed Number_toString 2 (User.cost user);
     row_avg := "$" ++ toFixed Number_toString 4 (user_avg_per_request user) |}.

(** Line 336: [data.top_users.slice(0, 10).map(...)]. *)
Definition top_user_rows (data : SummaryData) : list UserRow :=
  map user_row (firstn 10 (top_users data)).

End DashboardRows.

(* ================================================================== *)
(** ** Bookkeeping of runs *)
(* ================================================================== *)

(** Every request in flight was issued before the next one to come. *)
Definition fresh_ids (w : World) : Prop :=
  Forall (fun p => fst p < next_request w) (inflight w).

(** The event hands a falsy value to [setData]: a summary request settles
    with a successful response whose body is [null], [false], [0] or the
    empty string. *)
Definition applies_falsy (w : World) (e : Event) : bool :=
  match e with
  | Settle id r =>
      match pending id (inflight w), fetchData_try r with
      | Some GET_summary, inr v => negb (truthy v)
      | _, _ => false
      end
  | _ => false
  end.

(** No event of the run hands a falsy value to [setData]. *)
Fixpoint falsy_free (w : World) (es : list Event) : bool :=
  match es with
  | [] => true
  | e :: rest =>
      negb (applies_falsy w e)
      && match step w e with
         | Some w' => falsy_free w' rest
         | None => true
         end
  end.

(* ================================================================== *)
(** ** Facts about the embedded JavaScript fragment *)
(* ================================================================== *)

Lemma float_eqb_zero (x : float) :
  PrimFloat.eqb x 0 = true -> x = 0%float \/ x = PrimFloat.neg_zero.
Proof.
  rewrite FloatAxioms.eqb_spec. intro H.
  rewrite <- (SF2Prim_Prim2SF x).
  destruct (Prim2SF x) as [s | s | | s m e].
  - destruct s; [right | left]; reflexivity.
  - destruct s; discriminate H.
  - discriminate H.
  - destruct s; discriminate H.
Qed.

Lemma toFixed_nan (N : float -> string) (f : nat) :
  toFixed N f PrimFloat.nan = "NaN".
Proof. reflexivity. Qed.

Lemma traverse_map {A : Type} (enc : A -> JSON) (dec : JSON -> option A)
    (l : list A) :
  (forall a, dec (enc a) = Some a) ->
  traverse dec (map enc l) = Some l.
Proof.
  intro Hrt. induction l as [| a l IH]; simpl.
  - reflexivity.
  - rewrite Hrt. simpl. rewrite IH. reflexivity.
Qed.

(** A value built by [encode] has the [SummaryData] shape, and reading it
    back gives the record it was built from. *)
Lemma decode_encode (d : SummaryData) : decode (encode d) = Some d.
Proof.
  destruct d as [n c s h a ds ps us].
  unfold decode, encode. cbn -[traverse map].
  rewrite (traverse_map encode_daily decode_daily),
          (traverse_map encode_provider decode_provider),
          (traverse_map encode_user decode_user).
  - reflexivity.
  - intros [u c' r]. reflexivity.
  - intros [p c' r]. reflexivity.
  - intros [dt c' r sv]. reflexivity.
Qed.

Lemma total_requests_encode (d : SummaryData) :
  get_field (encode d) "total_requests" = Some (JNum (total_requests d)).
Proof. reflexivity. Qed.

Lemma truthy_encode (d : SummaryData) : truthy (encode d) = true.
Proof. reflexivity. Qed.

(* ================================================================== *)
(** ** Derived metrics *)
(* ================================================================== *)

(** C3, counterexample: a summary with 5 requests, no cost and no saving is
    shown on the dashboard, and its savings rate is printed as [NaN%]. *)
Lemma savings_rate_nan_is_not_shown_as_zero :
  ~ zero_spend_shown_as_zero_percent.
Proof.
  intro H.
  assert (Hshown : savings_rate_text exponential_stub (summary_of 5 0 0) = "NaN%")
    by reflexivity.
  destruct (H exponential_stub (summary_of 5 0 0)) as [E | E];
    try reflexivity; rewrite Hshown in E; discriminate E.
Qed.

(** C3, as the code has it: the savings rate is
    [cost_saved / (total_cost + cost_saved) * 100] in binary64 arithmetic;
    when both amounts are zero (of either sign) the result is NaN, no
    exception is involved, and the dashboard prints it with [toFixed(1)] as
    the text [NaN%]: nothing replaces it by zero. *)
Theorem savings_rate_formula_and_zero_case (d : SummaryData) :
  savingsRate d
  = PrimFloat.mul (PrimFloat.div (cost_saved d)
                     (PrimFloat.add (total_cost d) (cost_saved d))) 100
  /\ (PrimFloat.eqb (total_cost d) 0 = true ->
      PrimFloat.eqb (cost_saved d) 0 = true ->
      savingsRate d = PrimFloat.nan
      /\ forall N, savings_rate_text N d = "NaN%").
Proof.
  split; [reflexivity |].
  intros Ht Hc.
  assert (Hnan : savingsRate d = PrimFloat.nan).
  { unfold savingsRate.
    destruct (float_eqb_zero _ Ht) as [-> | ->];
      destruct (float_eqb_zero _ Hc) as [-> | ->]; reflexivity. }
  split; [exact Hnan |].
  intro N. unfold savings_rate_text. rewrite Hnan. reflexivity.
Qed.

Lemma savings_rate_formula_and_zero_case_witness :
  savingsRate (summary_of 5 0 0) = PrimFloat.nan
  /\ savings_rate_text exponential_stub (summary_of 5 0 0) = "NaN%".
Proof.
  destruct (savings_rate_formula_and_zero_case (summary_of 5 0 0)) as [_ H].
  destruct H as [Hnan Htext]; [reflexivity | reflexivity |].
  split; [exact Hnan | exact (Htext exponential_stub)].
Defined.

(** C4: the per-day average is [total_requests / 30], whatever the length or
    content of [daily_breakdown]; 12000 requests give exactly 400, printed
    as [400 per day avg]. *)
Theorem requests_per_day_fixed_divisor
    (n c s h a : float) (days days' : list Daily.t)
    (ps : list Provider.t) (us : list User.t) :
  let with_days := fun (requests : float) (l : list Daily.t) =>
    {| total_requests := requests; total_cost := c; cost_saved := s;
       cache_hit_rate := h; avg_cost_per_request := a;
       daily_breakdown := l; provider_breakdown := ps; top_users := us |} in
  requests_per_day_avg (with_days n days) = PrimFloat.div n 30
  /\ requests_per_day_avg (with_days n days) = requests_per_day_avg (with_days n days')
  /\ requests_per_day_avg (with_days 12000%float days) = 400%float
  /\ forall N, per_day_text N (with_days 12000%float days) = "400 per day avg".
Proof.
  cbv zeta. repeat split.
Qed.

(** C5: with the monthly fee the constant 99 of the source (positive, so the
    divisor [99 * 12] is not zero), the annual projection is
    [cost_saved * 12], the net saving is the projection minus twelve fees,
    and the ROI multiple is the net saving over twelve fees. *)
Theorem roi_figures_consistent (d : SummaryData) :
  let monthlyFee := 99%float in
  PrimFloat.ltb 0 monthlyFee = true
  /\ PrimFloat.eqb (PrimFloat.mul monthlyFee 12) 0 = false
  /\ annual_projection d = PrimFloat.mul (cost_saved d) 12
  /\ net_annual_savings d
     = PrimFloat.sub (annual_projection d) (PrimFloat.mul monthlyFee 12)
  /\ roi_multiple d
     = PrimFloat.div (net_annual_savings d) (PrimFloat.mul monthlyFee 12).
Proof.
  cbv zeta. repeat split.
Qed.

(** Scenario A of the specification: cost 100, saved 233.33 and 12000
    requests are shown as a saving of 70.0%, 400 requests per day, a yearly
    projection of $2800, a net saving of $1612 and an ROI of 1x. *)
Example scenario_A_figures :
  let A := summary_of 12000 100 (PrimFloat.div 23333 100) in
  render (showing A) = DashboardScreen (encode A)
  /\ savings_rate_text exponential_stub A = "70.0%"
  /\ per_day_text exponential_stub A = "400 per day avg"
  /\ annual_projection_text exponential_stub A = "$2800"
  /\ net_savings_text exponential_stub A = "$1612"
  /\ roi_text exponential_stub A = "1x ROI".
Proof. cbv zeta. repeat split. Qed.

(** [toFixed] rounds the binary64 value, not the decimal literal: 1.005 is
    stored just below 1.005, and a tie goes to the larger integer. *)
Example toFixed_samples :
  toFixed exponential_stub 2 (PrimFloat.div 1005 1000) = "1.00"
  /\ toFixed exponential_stub 0 (PrimFloat.div 5 2) = "3"
  /\ toFixed exponential_stub 1 (PrimFloat.div (-4) 100) = "-0.0"
  /\ toFixed exponential_stub 4 (PrimFloat.div 12345678 10000) = "1234.5678"
  /\ toFixed exponential_stub 2 (PrimFloat.div 1 0) = "Infinity".
Proof. repeat split. Qed.

(** A user without requests: the average is a division by zero, which gives
    an infinity or NaN and no exception. *)
Example user_average_without_requests :
  user_avg_per_request
    {| User.user_id := "user_1"; User.cost := 1; User.requests := 0 |}
  = PrimFloat.infinity
  /\ user_avg_per_request
       {| User.user_id := "user_2"; User.cost := 0; User.requests := 0 |}
     = PrimFloat.nan.
Proof. split; reflexivity. Qed.

(* ================================================================== *)
(** ** Facts about requests in flight *)
(* ================================================================== *)

Lemma pending_settled_other (a b : nat) (l : list (nat * Endpoint)) :
  a <> b ->
  pending b (filter (fun p => negb (Nat.eqb (fst p) a)) l) = pending b l.
Proof.
  intro Hab. induction l as [| [id ep] l IH]; simpl.
  - reflexivity.
  - destruct (Nat.eqb_spec id a) as [-> | Hne]; simpl.
    + destruct (Nat.eqb_spec a b) as [E | _]; [contradiction | exact IH].
    + destruct (Nat.eqb id b); [reflexivity | exact IH].
Qed.

Lemma settle_summary (w : World) (id : nat) (r : Settled) :
  mounted w = true ->
  pending id (inflight w) = Some GET_summary ->
  step w (Settle id r)
  = Some {| state := fetchData_finish r (state w); mounted := true;
            interval := interval w;
            inflight := filter (fun p => negb (Nat.eqb (fst p) id)) (inflight w);
            next_request := next_request w |}.
Proof.
  intros Hm Hp. unfold step. rewrite Hp.
  unfold fetchData_resume, set_state, settled. simpl. rewrite Hm. reflexivity.
Qed.

Lemma fetchData_finish_success (r : Settled) (v : JSON) (s : State) :
  fetchData_try r = inr v ->
  fetchData_finish r s = {| data := v; loading := false; error := None |}.
Proof. intro H. unfold fetchData_finish. rewrite H. reflexivity. Qed.

Lemma fetchData_finish_failure (r : Settled) (err : Thrown) (s : State) :
  fetchData_try r = inl err ->
  fetchData_finish r s
  = {| data := data s; loading := false; error := Some (catch_message err) |}.
Proof. intro H. unfold fetchData_finish. rewrite H. reflexivity. Qed.

(* ================================================================== *)
(** ** Overlapping fetches *)
(* ================================================================== *)

(** C1, counterexample: request 2 (the manual refresh) settles with 300
    requests, then request 1 (the older poll) settles with 200: both are
    applied and the older one is what remains. *)
Lemma older_response_overwrites_newer : ~ newest_request_wins.
Proof.
  intro H.
  destruct (run mount refresh_during_poll) as [w |] eqn:Hw; [| discriminate Hw].
  assert (Hr : reachable w) by (exists refresh_during_poll; exact Hw).
  vm_compute in Hw. injection Hw as <-.
  specialize (H _ _ 1 2 (encode (summary_of 200 1 1)) (encode (summary_of 300 1 1))
                Hr eq_refl eq_refl (Nat.lt_succ_diag_r 1) eq_refl).
  simpl in H. discriminate H.
Qed.

Lemma render_showing (d : SummaryData) : render (showing d) = view_of_summary d.
Proof.
  unfold render, showing, view_of_summary. cbn [data loading error andb error_truthy].
  rewrite truthy_encode, total_requests_encode. cbn [negb orb strict_eq_zero].
  reflexivity.
Qed.

(** C1, as the code has it: [fetchData] has no request token and cancels
    nothing.  When two summary requests are in flight and both are answered
    successfully with summaries (bodies of the [SummaryData] shape), each
    response is applied and shown as it settles, and what remains is the
    summary of the one that settled last, whichever was issued first. *)
Theorem last_settled_response_wins
    (w : World) (a b : nat) (ra rb : Settled) (da db : SummaryData) :
  mounted w = true ->
  pending a (inflight w) = Some GET_summary ->
  pending b (inflight w) = Some GET_summary ->
  a <> b ->
  fetchData_try ra = inr (encode da) ->
  fetchData_try rb = inr (encode db) ->
  exists w1 w2,
    step w (Settle b rb) = Some w1
    /\ data (state w1) = encode db
    /\ render (state w1) = view_of_summary db
    /\ step w1 (Settle a ra) = Some w2
    /\ data (state w2) = encode da
    /\ render (state w2) = view_of_summary da
    /\ run w [Settle b rb; Settle a ra] = Some w2.
Proof.
  intros Hm Ha Hb Hab Hra Hrb.
  pose proof (settle_summary w b rb Hm Hb) as H1.
  set (w1 := {| state := fetchData_finish rb (state w); mounted := true;
                interval := interval w;
                inflight := filter (fun p => negb (Nat.eqb (fst p) b)) (inflight w);
                next_request := next_request w |}) in H1.
  assert (Hp : pending a (inflight w1) = Some GET_summary).
  { unfold w1; simpl. rewrite pending_settled_other; [exact Ha | congruence]. }
  pose proof (settle_summary w1 a ra eq_refl Hp) as H2.
  assert (Hs1 : state w1 = showing db)
    by (unfold w1; cbn [state];
        rewrite (fetchData_finish_success _ _ _ Hrb); reflexivity).
  eexists; eexists. split; [exact H1 |].
  split; [rewrite Hs1; reflexivity |].
  split; [rewrite Hs1; apply render_showing |].
  split; [exact H2 |].
  cbn [state]. rewrite (fetchData_finish_success _ _ _ Hra).
  split; [reflexivity |].
  split; [exact (render_showing da) |].
  cbn [run]. rewrite H1. cbv beta iota. rewrite H2.
  rewrite (fetchData_finish_success _ _ _ Hra). reflexivity.
Qed.

Lemma last_settled_response_wins_witness :
  run mount refresh_during_poll = Some (after refresh_during_poll)
  /\ exists w1 w2,
       step (after refresh_during_poll)
            (Settle 2 (ok_200 (encode (summary_of 300 1 1)))) = Some w1
       /\ data (state w1) = encode (summary_of 300 1 1)
       /\ render (state w1) = view_of_summary (summary_of 300 1 1)
       /\ step w1 (Settle 1 (ok_200 (encode (summary_of 200 1 1)))) = Some w2
       /\ data (state w2) = encode (summary_of 200 1 1)
       /\ render (state w2) = view_of_summary (summary_of 200 1 1)
       /\ run (after refresh_during_poll)
              [Settle 2 (ok_200 (encode (summary_of 300 1 1)));
               Settle 1 (ok_200 (encode (summary_of 200 1 1)))] = Some w2.
Proof.
  split; [reflexivity |].
  apply (last_settled_response_wins (after refresh_during_poll) 1 2);
    try reflexivity.
  discriminate.
Defined.

(* ================================================================== *)
(** ** A failing fetch after a successful one *)
(* ================================================================== *)

(** C2, counterexample: the dashboard shows 12000 requests, the next poll
    is answered with status 500, and the view becomes the error screen. *)
Lemma failed_poll_replaces_dashboard : ~ failure_keeps_data_on_screen.
Proof.
  intro H.
  apply (H (showing (summary_of 12000 100 200)) (with_status 500 (JObj []))
           (ErrorObj "Failed to fetch data") eq_refl eq_refl
           "Failed to fetch data").
  reflexivity.
Qed.

(** C2, as the code has it: a failing fetch leaves [data] as it was, records
    the message and ends in phase [Error]; the component then returns the
    error screen (the message and [Retry]) whenever the message is not
    empty, so the kept snapshot is not on screen while the error stands. *)
Theorem failed_fetch_keeps_snapshot_behind_error_screen
    (w : World) (id : nat) (r : Settled) (err : Thrown) :
  mounted w = true ->
  pending id (inflight w) = Some GET_summary ->
  snapshot_present (state w) = true ->
  fetchData_try r = inl err ->
  exists w',
    step w (Settle id r) = Some w'
    /\ data (state w') = data (state w)
    /\ snapshot_present (state w') = true
    /\ phase (state w') = Error
    /\ error (state w') = Some (catch_message err)
    /\ (string_truthy (catch_message err) = true ->
        render (state w') = ErrorScreen (catch_message err)
        /\ offers (render (state w')) Retry = true).
Proof.
  intros Hm Hp Hs Hr.
  eexists. split; [exact (settle_summary w id r Hm Hp) |].
  cbn [state]. rewrite (fetchData_finish_failure _ _ _ Hr).
  split; [reflexivity |]. split; [exact Hs |].
  split; [reflexivity |]. split; [reflexivity |].
  intro Hmsg. unfold render; cbn. rewrite Hmsg. split; reflexivity.
Qed.

Lemma failed_fetch_keeps_snapshot_behind_error_screen_witness :
  exists w',
    step (after refresh_during_poll) (Settle 1 (with_status 500 (JObj []))) = Some w'
    /\ data (state w') = data (state (after refresh_during_poll))
    /\ snapshot_present (state w') = true
    /\ phase (state w') = Error
    /\ error (state w') = Some "Failed to fetch data"
    /\ (string_truthy "Failed to fetch data" = true ->
        render (state w') = ErrorScreen "Failed to fetch data"
        /\ offers (render (state w')) Retry = true).
Proof.
  apply (failed_fetch_keeps_snapshot_behind_error_screen
           (after refresh_during_poll) 1 (with_status 500 (JObj []))
           (ErrorObj "Failed to fetch data")); reflexivity.
Defined.

(* ================================================================== *)
(** ** Demo data *)
(* ================================================================== *)

(** C6, counterexample: the POST is rejected (no connection); control jumps
    to [catch], no summary request is issued and nothing is in flight. *)
Lemma rejected_seed_skips_refetch : ~ refetch_after_every_seed_outcome.
Proof.
  intro H.
  assert (Hr : reachable (after demo_requested))
    by (exists demo_requested; reflexivity).
  destruct (H (after demo_requested) 1 (Rejected (ErrorObj "Failed to fetch"))
              Hr eq_refl) as [w' [Hstep [Hnext _]]].
  vm_compute in Hstep. injection Hstep as <-.
  vm_compute in Hnext. discriminate Hnext.
Qed.

(** C6, as the code has it: [generateDemoData] awaits the POST inside a
    [try].  When the POST is answered, with any status (the status is not
    looked at and no error is recorded for it), [fetchData] is started:
    one summary request is issued.  When the POST is rejected, no request
    is issued; the error becomes the fixed text
    [Failed to generate demo data], which differs from the two fixed texts
    of [fetchData], and [loading] and [data] stay as they were. *)
Theorem demo_seed_outcomes (w : World) (id : nat) (r : Settled) :
  pending id (inflight w) = Some POST_demo_data ->
  exists w',
    step w (Settle id r) = Some w'
    /\ match r with
       | Resolved _ =>
           inflight w'
           = (inflight (settled id w) ++ [(next_request w, GET_summary)])%list
           /\ next_request w' = S (next_request w)
           /\ error (state w') = error (state w)
           /\ data (state w') = data (state w)
           /\ (mounted w = true -> loading (state w') = true)
       | Rejected _ =>
           inflight w' = inflight (settled id w)
           /\ next_request w' = next_request w
           /\ loading (state w') = loading (state w)
           /\ data (state w') = data (state w)
           /\ (mounted w = true ->
               error (state w') = Some "Failed to generate demo data")
       end
    /\ "Failed to generate demo data" <> "Failed to fetch data"
    /\ "Failed to generate demo data" <> "Failed to load data".
Proof.
  intro Hp. unfold step. rewrite Hp.
  eexists. split; [reflexivity |]. split; [| split; discriminate].
  destruct r as [err | response]; unfold generateDemoData_resume.
  - unfold set_state, settled; cbn [mounted state].
    destruct (mounted w) eqn:Hm; cbn; repeat split; try reflexivity.
    intro Habs; discriminate Habs.
  - unfold fetchData, send, set_state, settled; cbn [mounted state].
    destruct (mounted w) eqn:Hm; cbn; repeat split; try reflexivity.
    intro Habs; discriminate Habs.
Qed.

Lemma demo_seed_outcomes_witness :
  exists w',
    step (after demo_requested) (Settle 1 (with_status 500 JNull)) = Some w'
    /\ (inflight w'
        = (inflight (settled 1 (after demo_requested))
           ++ [(next_request (after demo_requested), GET_summary)])%list
        /\ next_request w' = S (next_request (after demo_requested))
        /\ error (state w') = error (state (after demo_requested))
        /\ data (state w') = data (state (after demo_requested))
        /\ (mounted (after demo_requested) = true -> loading (state w') = true))
    /\ "Failed to generate demo data" <> "Failed to fetch data"
    /\ "Failed to generate demo data" <> "Failed to load data".
Proof.
  apply (demo_seed_outcomes (after demo_requested) 1 (with_status 500 JNull)).
  reflexivity.
Defined.

(* ================================================================== *)
(** ** Which responses count as failures *)
(* ================================================================== *)

(** C7, counterexample: status 200 with the body [{}], which has none of the
    declared properties, is handed to [setData]. *)
Lemma empty_object_body_is_applied : ~ only_well_shaped_bodies_applied.
Proof.
  intro H. specialize (H (ok_200 (JObj [])) (JObj []) eq_refl).
  discriminate H.
Qed.

(** C7, as the code has it: [fetchData] fails exactly when [fetch] rejects,
    or the status is outside 200 to 299, or [response.json()] rejects (the
    body is not JSON text).  In those cases [data] is untouched, the message
    is recorded and the phase is [Error].  In the remaining case the parsed
    value, of whatever shape, becomes [data], the error is cleared and the
    phase is [Ready]. *)
Theorem fetch_failure_cases (r : Settled) (s : State) :
  let s' := fetchData_finish r s in
  match r with
  | Rejected err =>
      data s' = data s /\ error s' = Some (catch_message err) /\ phase s' = Error
  | Resolved response =>
      if ok response then
        match json response with
        | inl err =>
            data s' = data s /\ error s' = Some (catch_message err)
            /\ phase s' = Error
        | inr v => data s' = v /\ error s' = None /\ phase s' = Ready
        end
      else
        data s' = data s /\ error s' = Some "Failed to fetch data"
        /\ phase s' = Error
  end.
Proof.
  cbv zeta. unfold fetchData_finish, fetchData_try.
  destruct r as [err | response].
  - repeat split.
  - destruct (ok response); cbn [negb].
    + destruct (json response) as [err | v]; repeat split.
    + repeat split.
Qed.

(* ================================================================== *)
(** ** Unmounting *)
(* ================================================================== *)

Lemma set_state_unmounted (f : State -> State) (w : World) :
  mounted w = false -> set_state f w = w.
Proof. intro H. unfold set_state. rewrite H. reflexivity. Qed.

(** Once the component is unmounted and its timer cleared, no event changes
    the state cells or brings the timer back. *)
Lemma step_unmounted (w w' : World) (e : Event) :
  mounted w = false -> interval w = false ->
  step w e = Some w' ->
  state w' = state w /\ mounted w' = false /\ interval w' = false.
Proof.
  intros Hm Hi Hs. destruct e as [| b | id r |]; cbn [step] in Hs.
  - rewrite Hi in Hs. discriminate Hs.
  - rewrite Hm in Hs. discriminate Hs.
  - assert (Hm' : mounted (settled id w) = false) by exact Hm.
    destruct (pending id (inflight w)) as [[|] |]; [| | discriminate Hs];
      injection Hs as <-.
    + unfold fetchData_resume. rewrite (set_state_unmounted _ _ Hm').
      auto.
    + destruct r as [err | response]; unfold generateDemoData_resume, fetchData.
      * rewrite (set_state_unmounted _ _ Hm'). auto.
      * rewrite (set_state_unmounted _ _ Hm'). auto.
  - rewrite Hm in Hs. discriminate Hs.
Qed.

Lemma run_unmounted (es : list Event) :
  forall w w',
    mounted w = false -> interval w = false ->
    run w es = Some w' ->
    state w' = state w /\ mounted w' = false /\ interval w' = false.
Proof.
  induction es as [| e es IH]; intros w w' Hm Hi Hr; cbn [run] in Hr.
  - injection Hr as <-. auto.
  - destruct (step w e) as [w1 |] eqn:Hs; [| discriminate Hr].
    destruct (step_unmounted w w1 e Hm Hi Hs) as [Hst [Hm1 Hi1]].
    destruct (IH w1 w' Hm1 Hi1 Hr) as [Hst' [Hm' Hi']].
    rewrite Hst', Hst. auto.
Qed.

(** C8: unmounting clears the interval, so no further tick can fire.  A
    request that was in flight still settles afterwards, and [fetchData]
    still calls its setters, but the update of an unmounted component is
    dropped: after the unmount no sequence of events changes [data],
    [loading] or [error], nor arms the timer again. *)
Theorem no_state_change_after_unmount (w : World) :
  mounted w = true ->
  exists w0,
    step w Unmount = Some w0
    /\ interval w0 = false
    /\ step w0 Tick = None
    /\ (forall id ep r,
          pending id (inflight w) = Some ep ->
          exists w1, step w0 (Settle id r) = Some w1 /\ state w1 = state w)
    /\ (forall es w',
          run w0 es = Some w' ->
          state w' = state w /\ interval w' = false /\ mounted w' = false).
Proof.
  intro Hm. exists (unmount w). cbn [step]. rewrite Hm.
  split; [reflexivity |]. split; [reflexivity |]. split; [reflexivity |].
  split.
  - intros id ep r Hp.
    destruct (step (unmount w) (Settle id r)) as [w1 |] eqn:Hs.
    + exists w1. split; [exact Hs |].
      destruct (step_unmounted (unmount w) w1 _ eq_refl eq_refl Hs) as [Hst _].
      exact Hst.
    + cbn [step unmount clearInterval inflight] in Hs. rewrite Hp in Hs.
      destruct ep; discriminate Hs.
  - intros es w' Hr.
    destruct (run_unmounted es (unmount w) w' eq_refl eq_refl Hr)
      as [Hst [Hm' Hi']].
    auto.
Qed.

Lemma no_state_change_after_unmount_witness :
  exists w0,
    step (after refresh_during_poll) Unmount = Some w0
    /\ interval w0 = false
    /\ step w0 Tick = None
    /\ (forall id ep r,
          pending id (inflight (after refresh_during_poll)) = Some ep ->
          exists w1,
            step w0 (Settle id r) = Some w1
            /\ state w1 = state (after refresh_during_poll))
    /\ (forall es w',
          run w0 es = Some w' ->
          state w' = state (after refresh_during_poll)
          /\ interval w' = false /\ mounted w' = false).
Proof.
  apply (no_state_change_after_unmount (after refresh_during_poll)).
  reflexivity.
Defined.

(** A request is still answered after the unmount, and the answer changes
    nothing: the poll of [refresh_during_poll] settles with 999 requests
    once the component is gone. *)
Example late_response_is_dropped :
  exists w',
    run (after refresh_during_poll)
        [Unmount; Settle 1 (ok_200 (encode (summary_of 999 1 1)))] = Some w'
    /\ state w' = state (after refresh_during_poll)
    /\ data (state w') = encode (summary_of 100 1 1).
Proof. eexists. repeat split. Qed.

(* ================================================================== *)
(** ** Ready and the snapshot *)
(* ================================================================== *)

(** C9, counterexample: the first request is answered with status 200 and
    the body [null]; [setData(null)] runs, the error is cleared, loading
    ends: phase [Ready] with no snapshot. *)
Lemma null_body_gives_ready_without_snapshot : ~ every_ready_state_has_snapshot.
Proof.
  intro H.
  specialize (H (after [Settle 0 (ok_200 JNull)])
                (ex_intro _ [Settle 0 (ok_200 JNull)] eq_refl) eq_refl).
  discriminate H.
Qed.

Lemma phase_ready (s : State) :
  phase s = Ready <-> loading s = false /\ error s = None.
Proof.
  unfold phase. destruct (loading s), (error s); split;
    try discriminate; try (intros [? ?]; discriminate); auto.
Qed.

Lemma ready_snapshot_set_loading (w : World) :
  (phase (state w) = Ready -> snapshot_present (state w) = true) ->
  phase (state (set_state (setLoading true) w)) = Ready ->
  snapshot_present (state (set_state (setLoading true) w)) = true.
Proof.
  intro Hinv. unfold set_state. destruct (mounted w).
  - cbn. discriminate.
  - exact Hinv.
Qed.

(** One event keeps the invariant, unless it hands [null] to [setData]. *)
Lemma step_ready_snapshot (w w' : World) (e : Event) :
  (phase (state w) = Ready -> snapshot_present (state w) = true) ->
  applies_null w e = false ->
  step w e = Some w' ->
  phase (state w') = Ready -> snapshot_present (state w') = true.
Proof.
  intros Hinv Hnull Hs.
  destruct e as [| b | id r |]; cbn [step] in Hs.
  - destruct (interval w); [| discriminate Hs]. injection Hs as <-.
    exact (ready_snapshot_set_loading w Hinv).
  - destruct (mounted w && offers (render (state w)) b); [| discriminate Hs].
    injection Hs as <-.
    destruct b; try exact (ready_snapshot_set_loading w Hinv). exact Hinv.
  - cbn [applies_null] in Hnull.
    destruct (pending id (inflight w)) as [[|] |]; [| | discriminate Hs];
      injection Hs as <-.
    + unfold fetchData_resume, set_state. cbn [settled mounted state].
      destruct (mounted w); [| exact Hinv].
      cbn [state]. unfold fetchData_finish.
      destruct (fetchData_try r) as [err | v].
      * cbn. discriminate.
      * intros _. destruct v; [discriminate Hnull | | | | |]; reflexivity.
    + destruct r as [err | response]; unfold generateDemoData_resume.
      * unfold set_state. cbn [settled mounted state].
        destruct (mounted w); [| exact Hinv].
        cbn [state]. intro Hph. apply phase_ready in Hph.
        destruct Hph as [_ Herr]. discriminate Herr.
      * exact (ready_snapshot_set_loading (settled id w) Hinv).
  - destruct (mounted w); [| discriminate Hs]. injection Hs as <-. exact Hinv.
Qed.

Lemma run_ready_snapshot (es : list Event) :
  forall w w',
    (phase (state w) = Ready -> snapshot_present (state w) = true) ->
    null_free w es = true ->
    run w es = Some w' ->
    phase (state w') = Ready -> snapshot_present (state w') = true.
Proof.
  induction es as [| e es IH]; intros w w' Hinv Hnf Hr;
    cbn [run null_free] in Hr, Hnf.
  - injection Hr as <-. exact Hinv.
  - destruct (step w e) as [w1 |] eqn:Hs; [| discriminate Hr].
    apply andb_true_iff in Hnf. destruct Hnf as [Hn Hrest].
    apply negb_true_iff in Hn.
    exact (IH w1 w' (step_ready_snapshot w w1 e Hinv Hn Hs) Hrest Hr).
Qed.

(** C9, as the code has it: the component starts in phase [Loading] with no
    snapshot; along every run in which no successful response carries the
    body [null], phase [Ready] implies that the snapshot is present; and
    phase [Loading] does occur together with a present snapshot. *)
Theorem ready_implies_snapshot (es : list Event) (w : World) :
  run mount es = Some w ->
  null_free mount es = true ->
  (phase (state mount) = Loading /\ snapshot_present (state mount) = false)
  /\ (phase (state w) = Ready -> snapshot_present (state w) = true)
  /\ exists es' w',
       run mount es' = Some w' /\ null_free mount es' = true
       /\ phase (state w') = Loading /\ snapshot_present (state w') = true.
Proof.
  intros Hr Hnf. split; [split; reflexivity |]. split.
  - apply (run_ready_snapshot es mount w); try assumption.
    cbn. discriminate.
  - exists refresh_during_poll, (after refresh_during_poll).
    repeat split.
Qed.

Lemma ready_implies_snapshot_witness :
  (phase (state mount) = Loading /\ snapshot_present (state mount) = false)
  /\ (phase (state (after demo_requested)) = Ready ->
      snapshot_present (state (after demo_requested)) = true)
  /\ exists es' w',
       run mount es' = Some w' /\ null_free mount es' = true
       /\ phase (state w') = Loading /\ snapshot_present (state w') = true.
Proof.
  apply (ready_implies_snapshot demo_requested (after demo_requested));
    reflexivity.
Defined.

(* ================================================================== *)
(** ** A summary without requests *)
(* ================================================================== *)

Lemma render_without_requests (d : SummaryData) (s : State) :
  PrimFloat.eqb (total_requests d) 0 = true ->
  data s = encode d ->
  render s = (if error_truthy (error s)
              then ErrorScreen (match error s with
                                | Some message => message
                                | None => EmptyString
                                end)
              else WelcomeScreen).
Proof.
  intros Hz Hd. unfold render. rewrite Hd, truthy_encode, total_requests_encode.
  cbn [negb strict_eq_zero]. rewrite Hz, andb_false_r, orb_true_r.
  reflexivity.
Qed.

(** C10, counterexample: a summary without requests is held and the timer
    fires.  While that refresh is loading the component shows the welcome
    screen; with [data] set to [null] in the same state it would show
    [Loading...], since line 68 is tested before line 93. *)
Lemma poll_tells_empty_summary_from_none :
  ~ empty_snapshot_looks_like_no_snapshot.
Proof.
  intro H.
  specialize (H (after poll_over_empty_summary) (summary_of 0 0 0)
                (ex_intro _ poll_over_empty_summary eq_refl) eq_refl eq_refl).
  discriminate H.
Qed.

(** C10, as the code has it: when a fetch succeeds with a summary whose
    [total_requests] is zero, the component stores it and is in phase
    [Ready], but returns the welcome screen with [Generate Demo Data] and
    without [Refresh]; no state holding that summary ever renders the
    dashboard or its derived metrics.  The view equals the one with [data]
    set to [null] exactly while no fetch is in progress: in every state that
    holds the summary with [loading] true, the component does not show the
    loading screen, whereas with [null] it does. *)
Theorem empty_summary_shows_welcome
    (w : World) (id : nat) (r : Settled) (d : SummaryData) :
  mounted w = true ->
  pending id (inflight w) = Some GET_summary ->
  fetchData_try r = inr (encode d) ->
  PrimFloat.eqb (total_requests d) 0 = true ->
  exists w',
    step w (Settle id r) = Some w'
    /\ data (state w') = encode d
    /\ phase (state w') = Ready
    /\ render (state w') = WelcomeScreen
    /\ offers (render (state w')) GenerateDemoData = true
    /\ offers (render (state w')) Refresh = false
    /\ render (state w') = render (setData JNull (state w'))
    /\ (forall s, data s = encode d -> loading s = false ->
                  render s = render (setData JNull s))
    /\ (forall s, data s = encode d -> loading s = true ->
                  render s <> LoadingScreen
                  /\ render (setData JNull s) = LoadingScreen)
    /\ forall s v, data s = encode d -> render s <> DashboardScreen v.
Proof.
  intros Hm Hp Hr Hz.
  eexists. split; [exact (settle_summary w id r Hm Hp) |].
  cbn [state]. rewrite (fetchData_finish_success _ _ _ Hr).
  assert (Hview : render {| data := encode d; loading := false; error := None |}
                  = WelcomeScreen)
    by (rewrite (render_without_requests
                   d {| data := encode d; loading := false; error := None |}
                   Hz eq_refl); reflexivity).
  rewrite Hview.
  repeat (split; [reflexivity |]).
  split; [| split].
  - intros s Hd Hl. rewrite (render_without_requests d s Hz Hd).
    unfold render, setData; cbn. rewrite Hl. cbn.
    destruct (error_truthy (error s)); reflexivity.
  - intros s Hd Hl. split.
    + rewrite (render_without_requests d s Hz Hd).
      destruct (error_truthy (error s)); discriminate.
    + unfold render, setData; cbn. rewrite Hl. reflexivity.
  - intros s v Hd. rewrite (render_without_requests d s Hz Hd).
    destruct (error_truthy (error s)); discriminate.
Qed.

Lemma empty_summary_shows_welcome_witness :
  exists w',
    step mount (Settle 0 (ok_200 (encode (summary_of 0 0 0)))) = Some w'
    /\ data (state w') = encode (summary_of 0 0 0)
    /\ phase (state w') = Ready
    /\ render (state w') = WelcomeScreen
    /\ offers (render (state w')) GenerateDemoData = true
    /\ offers (render (state w')) Refresh = false
    /\ render (state w') = render (setData JNull (state w'))
    /\ (forall s, data s = encode (summary_of 0 0 0) -> loading s = false ->
                  render s = render (setData JNull s))
    /\ (forall s, data s = encode (summary_of 0 0 0) -> loading s = true ->
                  render s <> LoadingScreen
                  /\ render (setData JNull s) = LoadingScreen)
    /\ forall s v, data s = encode (summary_of 0 0 0) ->
                   render s <> DashboardScreen v.
Proof.
  apply (empty_summary_shows_welcome mount 0); reflexivity.
Defined.

(* ================================================================== *)
(** ** The first fetch fails *)
(* ================================================================== *)

(** X1, scenario C of the specification: when the first fetch fails with a
    non-empty message, the phase is [Error], there is no snapshot, and the
    view is the error screen whose [Retry] button starts a new fetch. *)
Theorem first_fetch_failure_offers_retry (r : Settled) (err : Thrown) :
  fetchData_try r = inl err ->
  string_truthy (catch_message err) = true ->
  exists w',
    step mount (Settle 0 r) = Some w'
    /\ phase (state w') = Error
    /\ snapshot_present (state w') = false
    /\ render (state w') = ErrorScreen (catch_message err)
    /\ step w' (Click Retry) = Some (fetchData w')
    /\ phase (state (fetchData w')) = Loading
    /\ inflight (fetchData w') = [(1, GET_summary)].
Proof.
  intros Hr Hmsg.
  eexists. split; [exact (settle_summary mount 0 r eq_refl eq_refl) |].
  cbn [state]. rewrite (fetchData_finish_failure _ _ _ Hr).
  assert (Hview : render {| data := data (state mount); loading := false;
                            error := Some (catch_message err) |}
                  = ErrorScreen (catch_message err))
    by (unfold render; cbn; rewrite Hmsg; reflexivity).
  split; [reflexivity |]. split; [reflexivity |]. split; [exact Hview |].
  split; [| split; reflexivity].
  cbn [step state mounted andb]. rewrite Hview. reflexivity.
Qed.

Lemma first_fetch_failure_offers_retry_witness :
  exists w',
    step mount (Settle 0 (Rejected (ErrorObj "Failed to fetch"))) = Some w'
    /\ phase (state w') = Error
    /\ snapshot_present (state w') = false
    /\ render (state w') = ErrorScreen "Failed to fetch"
    /\ step w' (Click Retry) = Some (fetchData w')
    /\ phase (state (fetchData w')) = Loading
    /\ inflight (fetchData w') = [(1, GET_summary)].
Proof.
  apply (first_fetch_failure_offers_retry
           (Rejected (ErrorObj "Failed to fetch")) (ErrorObj "Failed to fetch"));
    reflexivity.
Defined.

(* ================================================================== *)
(** ** How the pieces of a world move *)
(* ================================================================== *)

Lemma set_state_frame (f : State -> State) (w : World) :
  mounted (set_state f w) = mounted w
  /\ interval (set_state f w) = interval w
  /\ inflight (set_state f w) = inflight w
  /\ next_request (set_state f w) = next_request w.
Proof. unfold set_state. destruct (mounted w) eqn:Hm; cbn; auto. Qed.

Lemma fetchData_frame (w : World) :
  mounted (fetchData w) = mounted w
  /\ interval (fetchData w) = interval w
  /\ inflight (fetchData w) = (inflight w ++ [(next_request w, GET_summary)])%list
  /\ next_request (fetchData w) = S (next_request w)
  /\ data (state (fetchData w)) = data (state w)
  /\ error (state (fetchData w)) = error (state w)
  /\ (mounted w = true -> loading (state (fetchData w)) = true).
Proof.
  unfold fetchData, send, set_state.
  destruct (mounted w) eqn:Hm; cbn; repeat split; auto.
  intro Habs; discriminate Habs.
Qed.

Lemma pending_app_new (id : nat) (ep : Endpoint) (l : list (nat * Endpoint)) :
  Forall (fun p => fst p < id) l ->
  pending id (l ++ [(id, ep)]) = Some ep.
Proof.
  induction 1 as [| [id' ep'] l Hlt _ IH]; cbn.
  - rewrite Nat.eqb_refl. reflexivity.
  - cbn in Hlt. destruct (Nat.eqb_spec id' id) as [E | _]; [lia | exact IH].
Qed.

Lemma filter_fresh (id : nat) (l : list (nat * Endpoint)) :
  Forall (fun p => fst p < id) l ->
  filter (fun p => negb (Nat.eqb (fst p) id)) l = l.
Proof.
  induction 1 as [| [id' ep'] l Hlt _ IH]; cbn.
  - reflexivity.
  - cbn in Hlt. destruct (Nat.eqb_spec id' id) as [E | _]; [lia |].
    cbn. rewrite IH. reflexivity.
Qed.

Lemma Forall_filter_keep {A : Type} (P : A -> Prop) (f : A -> bool) (l : list A) :
  Forall P l -> Forall P (filter f l).
Proof.
  induction 1 as [| a l Ha _ IH]; cbn; [constructor |].
  destruct (f a); [constructor; assumption | assumption].
Qed.

Lemma Forall_lt_weaken (n m : nat) (l : list (nat * Endpoint)) :
  n <= m ->
  Forall (fun p => fst p < n) l -> Forall (fun p => fst p < m) l.
Proof.
  intros Hle H. eapply Forall_impl; [| exact H]. cbn. intros p Hp. lia.
Qed.

Lemma fresh_ids_fetchData (w : World) : fresh_ids w -> fresh_ids (fetchData w).
Proof.
  unfold fresh_ids. intro H.
  destruct (fetchData_frame w) as [_ [_ [Hin [Hnx _]]]]. rewrite Hin, Hnx.
  apply Forall_app. split.
  - apply (Forall_lt_weaken (next_request w)); [lia | exact H].
  - constructor; [cbn; lia | constructor].
Qed.

Lemma fresh_ids_set_state (f : State -> State) (w : World) :
  fresh_ids w -> fresh_ids (set_state f w).
Proof.
  unfold fresh_ids. destruct (set_state_frame f w) as [_ [_ [Hin Hnx]]].
  rewrite Hin, Hnx. auto.
Qed.

Lemma fresh_ids_settled (id : nat) (w : World) :
  fresh_ids w -> fresh_ids (settled id w).
Proof. unfold fresh_ids, settled; cbn. apply Forall_filter_keep. Qed.

Lemma step_fresh_ids (w w' : World) (e : Event) :
  fresh_ids w -> step w e = Some w' -> fresh_ids w'.
Proof.
  intros Hf Hs. destruct e as [| b | id r |]; cbn [step] in Hs.
  - destruct (interval w); [| discriminate Hs]. injection Hs as <-.
    exact (fresh_ids_fetchData w Hf).
  - destruct (mounted w && offers (render (state w)) b); [| discriminate Hs].
    injection Hs as <-. destruct b; cbn [onClick].
    + exact (fresh_ids_fetchData w Hf).
    + exact (fresh_ids_fetchData w Hf).
    + unfold generateDemoData, send, fresh_ids; cbn.
      apply Forall_app. split.
      * apply (Forall_lt_weaken (next_request w)); [lia | exact Hf].
      * constructor; [cbn; lia | constructor].
  - pose proof (fresh_ids_settled id w Hf) as Hf'.
    destruct (pending id (inflight w)) as [[|] |]; [| | discriminate Hs];
      injection Hs as <-.
    + exact (fresh_ids_set_state _ _ Hf').
    + destruct r as [err | response]; cbn [generateDemoData_resume].
      * exact (fresh_ids_set_state _ _ Hf').
      * exact (fresh_ids_fetchData _ Hf').
  - destruct (mounted w); [| discriminate Hs]. injection Hs as <-. exact Hf.
Qed.

Lemma run_fresh_ids (es : list Event) :
  forall w w', fresh_ids w -> run w es = Some w' -> fresh_ids w'.
Proof.
  induction es as [| e es IH]; intros w w' Hf Hr; cbn [run] in Hr.
  - injection Hr as <-. exact Hf.
  - destruct (step w e) as [w1 |] eqn:Hs; [| discriminate Hr].
    exact (IH w1 w' (step_fresh_ids w w1 e Hf Hs) Hr).
Qed.

Lemma reachable_fresh_ids (w : World) : reachable w -> fresh_ids w.
Proof.
  intros [es Hr]. apply (run_fresh_ids es mount w); [| exact Hr].
  unfold fresh_ids; cbn. constructor; [cbn; lia | constructor].
Qed.

(* ================================================================== *)
(** ** Polling, loading and the timer *)
(* ================================================================== *)

(** X2: the timer callback never looks at the requests in flight.  While
    the interval is armed, [n] ticks in a row issue [n] further summary
    requests, all of which are in flight together with the earlier ones. *)
Theorem ticks_stack_requests (n : nat) :
  forall w : World,
    interval w = true ->
    exists w',
      run w (repeat Tick n) = Some w'
      /\ inflight w'
         = (inflight w
            ++ map (fun id => (id, GET_summary)) (seq (next_request w) n))%list
      /\ next_request w' = next_request w + n
      /\ interval w' = true.
Proof.
  induction n as [| n IH]; intros w Hi.
  - exists w. cbn. rewrite app_nil_r, Nat.add_0_r. auto.
  - destruct (fetchData_frame w) as [_ [Hint [Hin [Hnx _]]]].
    destruct (IH (fetchData w)) as [w' [Hr [Hin' [Hnx' Hi']]]];
      [rewrite Hint; exact Hi |].
    exists w'. cbn [repeat run step]. rewrite Hi.
    split; [exact Hr |]. split; [| split; [lia | exact Hi']].
    rewrite Hin', Hin, Hnx, <- app_assoc. reflexivity.
Qed.

Lemma ticks_stack_requests_witness :
  exists w',
    run mount (repeat Tick 3) = Some w'
    /\ inflight w'
       = (inflight mount
          ++ map (fun id => (id, GET_summary)) (seq (next_request mount) 3))%list
    /\ next_request w' = next_request mount + 3
    /\ interval w' = true.
Proof. apply (ticks_stack_requests 3 mount). reflexivity. Defined.

(** X3: [loading] is a flag, not a count.  With two summary requests in
    flight, the first response to settle, whatever it is, sets [loading] to
    false although the other request is still pending. *)
Theorem loading_ends_at_first_response
    (w : World) (a b : nat) (r : Settled) :
  mounted w = true ->
  pending a (inflight w) = Some GET_summary ->
  pending b (inflight w) = Some GET_summary ->
  a <> b ->
  exists w',
    step w (Settle a r) = Some w'
    /\ loading (state w') = false
    /\ phase (state w') <> Loading
    /\ pending b (inflight w') = Some GET_summary.
Proof.
  intros Hm Ha Hb Hab.
  eexists. split; [exact (settle_summary w a r Hm Ha) |].
  cbn [state inflight].
  assert (Hl : loading (fetchData_finish r (state w)) = false)
    by (unfold fetchData_finish; destruct (fetchData_try r); reflexivity).
  split; [exact Hl |]. split.
  - unfold phase. rewrite Hl. destruct (error _); discriminate.
  - rewrite pending_settled_other; assumption.
Qed.

Lemma loading_ends_at_first_response_witness :
  exists w',
    step (after refresh_during_poll) (Settle 1 (with_status 500 JNull)) = Some w'
    /\ loading (state w') = false
    /\ phase (state w') <> Loading
    /\ pending 2 (inflight w') = Some GET_summary.
Proof.
  apply (loading_ends_at_first_response (after refresh_during_poll) 1 2);
    try reflexivity.
  discriminate.
Defined.

Lemma step_timer_follows_mount (w w' : World) (e : Event) :
  interval w = mounted w -> step w e = Some w' -> interval w' = mounted w'.
Proof.
  intros Hinv Hs. destruct e as [| b | id r |]; cbn [step] in Hs.
  - destruct (interval w) eqn:Hiw; [| discriminate Hs]. injection Hs as <-.
    destruct (fetchData_frame w) as [Hm [Hi _]]. congruence.
  - destruct (mounted w && offers (render (state w)) b); [| discriminate Hs].
    injection Hs as <-. destruct b; cbn [onClick].
    + destruct (fetchData_frame w) as [Hm [Hi _]]. congruence.
    + destruct (fetchData_frame w) as [Hm [Hi _]]. congruence.
    + exact Hinv.
  - assert (Hinv' : interval (settled id w) = mounted (settled id w)) by exact Hinv.
    destruct (pending id (inflight w)) as [[|] |]; [| | discriminate Hs];
      injection Hs as <-.
    + unfold fetchData_resume.
      destruct (set_state_frame (fetchData_finish r) (settled id w)) as [Hm [Hi _]].
      congruence.
    + destruct r as [err | response]; cbn [generateDemoData_resume].
      * destruct (set_state_frame
                    (setError (Some "Failed to generate demo data"))
                    (settled id w)) as [Hm [Hi _]].
        congruence.
      * destruct (fetchData_frame (settled id w)) as [Hm [Hi _]]. congruence.
  - destruct (mounted w); [| discriminate Hs]. injection Hs as <-. reflexivity.
Qed.

(** X4: the timer is armed exactly as long as the component is mounted: in
    every state reached from the mount, [interval] equals [mounted], so no
    timer outlives the component and no mounted component is left without
    its poll. *)
Theorem timer_armed_while_mounted (es : list Event) :
  forall w : World, run mount es = Some w -> interval w = mounted w.
Proof.
  assert (H : forall w0 w, interval w0 = mounted w0 ->
                           run w0 es = Some w -> interval w = mounted w).
  { induction es as [| e es IH]; intros w0 w Hinv Hr; cbn [run] in Hr.
    - injection Hr as <-. exact Hinv.
    - destruct (step w0 e) as [w1 |] eqn:Hs; [| discriminate Hr].
      exact (IH w1 w (step_timer_follows_mount w0 w1 e Hinv Hs) Hr). }
  intros w Hr. exact (H mount w eq_refl Hr).
Qed.

Lemma timer_armed_while_mounted_witness :
  interval (after (refresh_during_poll ++ [Unmount]))
  = mounted (after (refresh_during_poll ++ [Unmount])).
Proof.
  apply (timer_armed_while_mounted (refresh_during_poll ++ [Unmount])).
  reflexivity.
Defined.

(* ================================================================== *)
(** ** What changes the snapshot and the error *)
(* ================================================================== *)

(** X5: the snapshot is written by nothing but a successful summary
    response reaching a mounted component: if an event changes [data], the
    event is such a response and the new [data] is its parsed body.  Ticks,
    clicks, failed fetches, demo seeding and unmounting leave it alone. *)
Theorem snapshot_changes_only_on_success (w w' : World) (e : Event) :
  step w e = Some w' ->
  data (state w') <> data (state w) ->
  exists id r,
    e = Settle id r
    /\ pending id (inflight w) = Some GET_summary
    /\ mounted w = true
    /\ fetchData_try r = inr (data (state w')).
Proof.
  intros Hs Hd. destruct e as [| b | id r |]; cbn [step] in Hs.
  - destruct (interval w); [| discriminate Hs]. injection Hs as <-.
    destruct (fetchData_frame w) as [_ [_ [_ [_ [Hdata _]]]]]. contradiction.
  - destruct (mounted w && offers (render (state w)) b); [| discriminate Hs].
    injection Hs as <-. destruct b; cbn [onClick] in Hd.
    + destruct (fetchData_frame w) as [_ [_ [_ [_ [Hdata _]]]]]. contradiction.
    + destruct (fetchData_frame w) as [_ [_ [_ [_ [Hdata _]]]]]. contradiction.
    + exfalso. apply Hd. reflexivity.
  - destruct (pending id (inflight w)) as [[|] |] eqn:Hp; [| | discriminate Hs];
      injection Hs as <-.
    + exists id, r. split; [reflexivity |]. split; [exact Hp |].
      revert Hd. unfold fetchData_resume, set_state. cbn [settled mounted state].
      destruct (mounted w); [| intro Hd; exfalso; apply Hd; reflexivity].
      cbn [state]. unfold fetchData_finish.
      destruct (fetchData_try r) as [err | v]; cbn.
      * intro Hd; exfalso; apply Hd; reflexivity.
      * auto.
    + exfalso. apply Hd. destruct r as [err | response];
        cbn [generateDemoData_resume].
      * unfold set_state. cbn [settled mounted state].
        destruct (mounted w); reflexivity.
      * destruct (fetchData_frame (settled id w)) as [_ [_ [_ [_ [Hdata _]]]]].
        exact Hdata.
  - destruct (mounted w); [| discriminate Hs]. injection Hs as <-.
    exfalso. apply Hd. reflexivity.
Qed.

Lemma snapshot_changes_only_on_success_witness :
  exists id r,
    Settle 2 (ok_200 (encode (summary_of 300 1 1))) = Settle id r
    /\ pending id (inflight (after refresh_during_poll)) = Some GET_summary
    /\ mounted (after refresh_during_poll) = true
    /\ fetchData_try r = inr (encode (summary_of 300 1 1)).
Proof.
  apply (snapshot_changes_only_on_success
           (after refresh_during_poll)
           (after (refresh_during_poll
                   ++ [Settle 2 (ok_200 (encode (summary_of 300 1 1)))]))
           (Settle 2 (ok_200 (encode (summary_of 300 1 1))))).
  - reflexivity.
  - discriminate.
Defined.

(** X6: starting a request never touches the error.  If an event changes
    [error], the component is mounted and the event is a request settling:
    a summary request (the error becomes the caught message, or [null]
    after a success) or a rejected demo-data POST (the fixed text). *)
Theorem error_changes_only_when_request_settles (w w' : World) (e : Event) :
  step w e = Some w' ->
  error (state w') <> error (state w) ->
  mounted w = true
  /\ exists id r,
       e = Settle id r
       /\ ((pending id (inflight w) = Some GET_summary
            /\ error (state w')
               = match fetchData_try r with
                 | inl err => Some (catch_message err)
                 | inr _ => None
                 end)
           \/ (pending id (inflight w) = Some POST_demo_data
               /\ (exists err, r = Rejected err)
               /\ error (state w') = Some "Failed to generate demo data")).
Proof.
  intros Hs He. destruct e as [| b | id r |]; cbn [step] in Hs.
  - destruct (interval w); [| discriminate Hs]. injection Hs as <-.
    destruct (fetchData_frame w) as [_ [_ [_ [_ [_ [Herr _]]]]]]. contradiction.
  - destruct (mounted w && offers (render (state w)) b); [| discriminate Hs].
    injection Hs as <-. destruct b; cbn [onClick] in He.
    + destruct (fetchData_frame w) as [_ [_ [_ [_ [_ [Herr _]]]]]]. contradiction.
    + destruct (fetchData_frame w) as [_ [_ [_ [_ [_ [Herr _]]]]]]. contradiction.
    + exfalso. apply He. reflexivity.
  - destruct (pending id (inflight w)) as [[|] |] eqn:Hp; [| | discriminate Hs];
      injection Hs as <-.
    + revert He. unfold fetchData_resume, set_state. cbn [settled mounted state].
      destruct (mounted w); [| intro He; exfalso; apply He; reflexivity].
      cbn [state]. intros _. split; [reflexivity |].
      exists id, r. split; [reflexivity |]. left. split; [exact Hp |].
      unfold fetchData_finish. destruct (fetchData_try r); reflexivity.
    + destruct r as [err | response]; cbn [generateDemoData_resume] in He |- *.
      * revert He. unfold set_state. cbn [settled mounted state].
        destruct (mounted w); [| intro He; exfalso; apply He; reflexivity].
        cbn [state]. intros _. split; [reflexivity |].
        exists id, (Rejected err). split; [reflexivity |]. right.
        split; [exact Hp |]. split; [exists err; reflexivity | reflexivity].
      * destruct (fetchData_frame (settled id w)) as [_ [_ [_ [_ [_ [Herr _]]]]]].
        exfalso. apply He. exact Herr.
  - destruct (mounted w); [| discriminate Hs]. injection Hs as <-.
    exfalso. apply He. reflexivity.
Qed.

Lemma error_changes_only_when_request_settles_witness :
  mounted (after demo_requested) = true
  /\ exists id r,
       Settle 1 (Rejected NonError) = Settle id r
       /\ ((pending id (inflight (after demo_requested)) = Some GET_summary
            /\ error (state (after (demo_requested ++ [Settle 1 (Rejected NonError)])))
               = match fetchData_try r with
                 | inl err => Some (catch_message err)
                 | inr _ => None
                 end)
           \/ (pending id (inflight (after demo_requested)) = Some POST_demo_data
               /\ (exists err, r = Rejected err)
               /\ error (state (after (demo_requested ++ [Settle 1 (Rejected NonError)])))
                  = Some "Failed to generate demo data")).
Proof.
  apply (error_changes_only_when_request_settles
           (after demo_requested)
           (after (demo_requested ++ [Settle 1 (Rejected NonError)]))
           (Settle 1 (Rejected NonError))).
  - reflexivity.
  - discriminate.
Defined.

(* ================================================================== *)
(** ** The loading screen *)
(* ================================================================== *)

Lemma step_keeps_truthy_data (w w' : World) (e : Event) :
  truthy (data (state w)) = true ->
  applies_falsy w e = false ->
  step w e = Some w' ->
  truthy (data (state w')) = true.
Proof.
  intros Ht Hf Hs.
  destruct (truthy (data (state w'))) eqn:Hnew; [reflexivity |].
  assert (Hd : data (state w') <> data (state w)) by congruence.
  destruct e as [| b | id r |]; cbn [step] in Hs.
  - destruct (interval w); [| discriminate Hs]. injection Hs as <-.
    destruct (fetchData_frame w) as [_ [_ [_ [_ [Hdata _]]]]]. contradiction.
  - destruct (mounted w && offers (render (state w)) b); [| discriminate Hs].
    injection Hs as <-. destruct b; cbn [onClick] in Hd.
    + destruct (fetchData_frame w) as [_ [_ [_ [_ [Hdata _]]]]]. contradiction.
    + destruct (fetchData_frame w) as [_ [_ [_ [_ [Hdata _]]]]]. contradiction.
    + exfalso. apply Hd. reflexivity.
  - cbn [applies_falsy] in Hf.
    destruct (pending id (inflight w)) as [[|] |]; [| | discriminate Hs];
      injection Hs as <-.
    + revert Hnew Hd. unfold fetchData_resume, set_state.
      cbn [settled mounted state].
      destruct (mounted w); [| intros _ Hd; exfalso; apply Hd; reflexivity].
      cbn [state]. unfold fetchData_finish.
      destruct (fetchData_try r) as [err | v]; cbn.
      * intros _ Hd; exfalso; apply Hd; reflexivity.
      * intros Hnew _. rewrite Hnew in Hf. discriminate Hf.
    + exfalso. apply Hd. destruct r as [err | response];
        cbn [generateDemoData_resume].
      * unfold set_state. cbn [settled mounted state].
        destruct (mounted w); reflexivity.
      * destruct (fetchData_frame (settled id w)) as [_ [_ [_ [_ [Hdata _]]]]].
        exact Hdata.
  - destruct (mounted w); [| discriminate Hs]. injection Hs as <-.
    exfalso. apply Hd. reflexivity.
Qed.

(** X7: once a truthy snapshot is held, the full-screen [Loading...] view
    never comes back: along every run in which no successful summary
    response carries a falsy body ([null], [false], [0] or the empty
    string), [data] stays truthy and the view is not the loading screen,
    also while a refresh is in progress. *)
Theorem loading_screen_never_returns (es : list Event) :
  forall w w' : World,
    truthy (data (state w)) = true ->
    falsy_free w es = true ->
    run w es = Some w' ->
    truthy (data (state w')) = true /\ render (state w') <> LoadingScreen.
Proof.
  assert (Hview : forall s, truthy (data s) = true -> render s <> LoadingScreen).
  { intros s Hs. unfold render. rewrite Hs, andb_false_r. cbn [negb orb].
    destruct (error_truthy (error s)); [discriminate |].
    destruct (strict_eq_zero _); discriminate. }
  induction es as [| e es IH]; intros w w' Ht Hf Hr;
    cbn [run falsy_free] in Hr, Hf.
  - injection Hr as <-. split; [exact Ht | exact (Hview _ Ht)].
  - destruct (step w e) as [w1 |] eqn:Hs; [| discriminate Hr].
    apply andb_true_iff in Hf. destruct Hf as [Hn Hrest].
    apply negb_true_iff in Hn.
    exact (IH w1 w' (step_keeps_truthy_data w w1 e Ht Hn Hs) Hrest Hr).
Qed.

Lemma loading_screen_never_returns_witness :
  truthy (data (state (after (refresh_during_poll
                              ++ [Settle 1 (with_status 503 JNull); Tick])))) = true
  /\ render (state (after (refresh_during_poll
                           ++ [Settle 1 (with_status 503 JNull); Tick])))
     <> LoadingScreen.
Proof.
  apply (loading_screen_never_returns
           [Tick; Click Refresh; Settle 1 (with_status 503 JNull); Tick]
           (after [Settle 0 (ok_200 (encode (summary_of 100 1 1)))]));
    reflexivity.
Defined.

(* ================================================================== *)
(** ** Recovery, retry and demo data *)
(* ================================================================== *)

(** X8: a successful summary response with a non-zero request count puts
    the dashboard on screen whatever was there before: the error, if any,
    is cleared, the view is the dashboard of that summary, and both header
    buttons are offered. *)
Theorem success_shows_dashboard
    (w : World) (id : nat) (r : Settled) (d : SummaryData) :
  mounted w = true ->
  pending id (inflight w) = Some GET_summary ->
  fetchData_try r = inr (encode d) ->
  PrimFloat.eqb (total_requests d) 0 = false ->
  exists w',
    step w (Settle id r) = Some w'
    /\ error (state w') = None
    /\ render (state w') = DashboardScreen (encode d)
    /\ offers (render (state w')) Refresh = true
    /\ offers (render (state w')) GenerateDemoData = true
    /\ offers (render (state w')) Retry = false.
Proof.
  intros Hm Hp Hr Hz.
  eexists. split; [exact (settle_summary w id r Hm Hp) |].
  cbn [state]. rewrite (fetchData_finish_success _ _ _ Hr).
  assert (Hview : render {| data := encode d; loading := false; error := None |}
                  = DashboardScreen (encode d)).
  { unfold render. cbn [data loading error andb error_truthy].
    rewrite truthy_encode, total_requests_encode.
    cbn [negb orb strict_eq_zero]. rewrite Hz. reflexivity. }
  rewrite Hview. repeat split.
Qed.

Lemma success_shows_dashboard_witness :
  exists w',
    step (after [Settle 0 (with_status 500 JNull); Click Retry])
         (Settle 1 (ok_200 (encode (summary_of 7 1 1)))) = Some w'
    /\ error (state w') = None
    /\ render (state w') = DashboardScreen (encode (summary_of 7 1 1))
    /\ offers (render (state w')) Refresh = true
    /\ offers (render (state w')) GenerateDemoData = true
    /\ offers (render (state w')) Retry = false.
Proof.
  apply (success_shows_dashboard
           (after [Settle 0 (with_status 500 JNull); Click Retry]) 1);
    reflexivity.
Defined.

(** X9: [Retry] on the error screen of a component without a snapshot
    brings the loading screen back: [setLoading(true)] does not clear the
    error, but [loading && !data] is tested first, so the message is hidden
    until the request settles. *)
Theorem retry_without_snapshot_shows_loading (w : World) (message : string) :
  mounted w = true ->
  truthy (data (state w)) = false ->
  render (state w) = ErrorScreen message ->
  exists w',
    step w (Click Retry) = Some w'
    /\ render (state w') = LoadingScreen
    /\ error (state w') = error (state w)
    /\ inflight w' = (inflight w ++ [(next_request w, GET_summary)])%list.
Proof.
  intros Hm Ht Hv. exists (fetchData w).
  cbn [step]. rewrite Hm, Hv. cbn [offers andb onClick].
  split; [reflexivity |].
  destruct (fetchData_frame w) as [_ [_ [Hin [_ [Hd [He Hl]]]]]].
  split; [| split; [exact He | exact Hin]].
  unfold render. rewrite Hd, Ht, (Hl Hm). reflexivity.
Qed.

Lemma retry_without_snapshot_shows_loading_witness :
  exists w',
    step (after [Settle 0 (with_status 500 JNull)]) (Click Retry) = Some w'
    /\ render (state w') = LoadingScreen
    /\ error (state w') = error (state (after [Settle 0 (with_status 500 JNull)]))
    /\ inflight w'
       = (inflight (after [Settle 0 (with_status 500 JNull)])
          ++ [(next_request (after [Settle 0 (with_status 500 JNull)]),
               GET_summary)])%list.
Proof.
  apply (retry_without_snapshot_shows_loading
           (after [Settle 0 (with_status 500 JNull)]) "Failed to fetch data");
    reflexivity.
Defined.

(** X10: the whole of [generateDemoData] when nothing is rejected.  From a
    view that offers the button, the click sends the POST; once it is
    answered, with any status, the summary is requested; when that request
    succeeds, its body is the snapshot, the error is cleared and loading
    has ended. *)
Theorem demo_data_round_trip
    (w : World) (answer : Response) (r : Settled) (v : JSON) :
  reachable w ->
  mounted w = true ->
  offers (render (state w)) GenerateDemoData = true ->
  fetchData_try r = inr v ->
  exists w',
    run w [Click GenerateDemoData;
           Settle (next_request w) (Resolved answer);
           Settle (S (next_request w)) r] = Some w'
    /\ state w' = {| data := v; loading := false; error := None |}
    /\ inflight w' = inflight w
    /\ next_request w' = S (S (next_request w)).
Proof.
  intros Hreach Hm Hoff Hr.
  pose proof (reachable_fresh_ids w Hreach) as Hf. unfold fresh_ids in Hf.
  set (n := next_request w) in *.
  assert (H1 : step w (Click GenerateDemoData) = Some (generateDemoData w))
    by (cbn [step]; rewrite Hm, Hoff; reflexivity).
  set (w1 := generateDemoData w) in *.
  assert (Hp1 : pending n (inflight w1) = Some POST_demo_data)
    by (unfold w1, generateDemoData, send; cbn [inflight];
        exact (pending_app_new n POST_demo_data (inflight w) Hf)).
  assert (Hin1 : inflight (settled n w1) = inflight w).
  { unfold w1, generateDemoData, send, settled; cbn [inflight].
    rewrite filter_app, (filter_fresh n (inflight w) Hf). cbn.
    rewrite Nat.eqb_refl. cbn. apply app_nil_r. }
  assert (H2 : step w1 (Settle n (Resolved answer))
               = Some (fetchData (settled n w1)))
    by (cbn [step]; rewrite Hp1; reflexivity).
  set (w2 := fetchData (settled n w1)) in *.
  destruct (fetchData_frame (settled n w1)) as [Hm2 [_ [Hin2 [Hnx2 _]]]].
  fold w2 in Hm2, Hin2, Hnx2. rewrite Hin1 in Hin2.
  assert (Hnx1 : next_request (settled n w1) = S n) by reflexivity.
  rewrite Hnx1 in Hin2, Hnx2.
  assert (Hm2' : mounted w2 = true) by (rewrite Hm2; exact Hm).
  assert (Hp2 : pending (S n) (inflight w2) = Some GET_summary).
  { rewrite Hin2. apply pending_app_new.
    apply (Forall_lt_weaken n); [lia | exact Hf]. }
  pose proof (settle_summary w2 (S n) r Hm2' Hp2) as H3.
  eexists. cbn [run]. rewrite H1. cbv beta iota. rewrite H2. cbv beta iota.
  rewrite H3. split; [reflexivity |].
  cbn [state inflight next_request].
  rewrite (fetchData_finish_success _ _ _ Hr).
  split; [reflexivity |]. split; [| exact Hnx2].
  rewrite Hin2, filter_app. cbn. rewrite Nat.eqb_refl. cbn.
  rewrite app_nil_r. apply filter_fresh.
  apply (Forall_lt_weaken n); [lia | exact Hf].
Qed.

Lemma demo_data_round_trip_witness :
  exists w',
    run (after [Settle 0 (ok_200 (encode (summary_of 0 0 0)))])
        [Click GenerateDemoData;
         Settle (next_request (after [Settle 0 (ok_200 (encode (summary_of 0 0 0)))]))
                (Resolved {| status := 201; json := inl NonError |});
         Settle (S (next_request
                      (after [Settle 0 (ok_200 (encode (summary_of 0 0 0)))])))
                (ok_200 (encode (summary_of 5000 40 60)))] = Some w'
    /\ state w' = {| data := encode (summary_of 5000 40 60);
                     loading := false; error := None |}
    /\ inflight w' = inflight (after [Settle 0 (ok_200 (encode (summary_of 0 0 0)))])
    /\ next_request w'
       = S (S (next_request (after [Settle 0 (ok_200 (encode (summary_of 0 0 0)))]))).
Proof.
  apply (demo_data_round_trip
           (after [Settle 0 (ok_200 (encode (summary_of 0 0 0)))])).
  - exists [Settle 0 (ok_200 (encode (summary_of 0 0 0)))]. reflexivity.
  - reflexivity.
  - reflexivity.
  - reflexivity.
Defined.

(** X11: unmounting does not stop a [generateDemoData] that is waiting for
    its POST.  When the answer arrives after the unmount, [fetchData] is
    still called: a summary request goes out, while the state of the
    unmounted component stays as it was. *)
Theorem seed_answer_after_unmount_still_fetches
    (w : World) (id : nat) (answer : Response) :
  mounted w = false ->
  pending id (inflight w) = Some POST_demo_data ->
  exists w',
    step w (Settle id (Resolved answer)) = Some w'
    /\ inflight w'
       = (inflight (settled id w) ++ [(next_request w, GET_summary)])%list
    /\ next_request w' = S (next_request w)
    /\ state w' = state w.
Proof.
  intros Hm Hp. exists (fetchData (settled id w)).
  cbn [step]. rewrite Hp. split; [reflexivity |].
  unfold fetchData, send.
  rewrite (set_state_unmounted (setLoading true) (settled id w) Hm).
  cbn. auto.
Qed.

Lemma seed_answer_after_unmount_still_fetches_witness :
  exists w',
    step (after (demo_requested ++ [Unmount]))
         (Settle 1 (Resolved {| status := 200; json := inr JNull |})) = Some w'
    /\ inflight w'
       = (inflight (settled 1 (after (demo_requested ++ [Unmount])))
          ++ [(next_request (after (demo_requested ++ [Unmount])), GET_summary)])%list
    /\ next_request w' = S (next_request (after (demo_requested ++ [Unmount])))
    /\ state w' = state (after (demo_requested ++ [Unmount])).
Proof.
  apply (seed_answer_after_unmount_still_fetches
           (after (demo_requested ++ [Unmount])) 1);
    reflexivity.
Defined.

(* ================================================================== *)
(** ** The table, the charts and the legend *)
(* ================================================================== *)

(** X12: the table of top users shows the first ten users of the summary,
    in the order received, and nothing beyond the tenth: row [i] is the row
    of user [i] when [i < 10], and there is no row otherwise. *)
Theorem top_users_table_shows_first_ten
    (N L : float -> string) (data : SummaryData) :
  length (top_user_rows N L data) = Nat.min 10 (length (top_users data))
  /\ forall i,
       nth_error (top_user_rows N L data) i
       = if (i <? 10)%nat
         then option_map (user_row N L) (nth_error (top_users data) i)
         else None.
Proof.
  unfold top_user_rows. split.
  - rewrite length_map, length_firstn. reflexivity.
  - intro i. rewrite nth_error_map, nth_error_firstn.
    destruct (i <? 10)%nat; reflexivity.
Qed.

Lemma last_app_nonempty {A : Type} (l1 l2 : list A) (d : A) :
  l2 <> [] -> last (l1 ++ l2) d = last l2 d.
Proof.
  intro Hne. induction l1 as [| a l1 IH]; [reflexivity |].
  cbn [app]. destruct (l1 ++ l2)%list as [| b tl] eqn:E.
  - destruct l1; [cbn in E; contradiction | discriminate E].
  - cbn [last]. exact IH.
Qed.

(** X13: the request-volume chart receives the last 14 entries of
    [daily_breakdown]: all of them when there are at most 14, otherwise the
    breakdown without its oldest entries, in the same order and always
    ending with the latest day. *)
Theorem request_volume_is_last_fourteen (data : SummaryData) :
  length (request_volume data) = Nat.min 14 (length (daily_breakdown data))
  /\ (exists older,
        daily_breakdown data = (older ++ request_volume data)%list
        /\ length older = length (daily_breakdown data) - 14)
  /\ (length (daily_breakdown data) <= 14 ->
      request_volume data = daily_breakdown data)
  /\ forall d0, last (request_volume data) d0 = last (daily_breakdown data) d0.
Proof.
  unfold request_volume, slice_last.
  generalize (daily_breakdown data) as l. intro l.
  assert (Hsplit : (firstn (length l - 14) l ++ skipn (length l - 14) l)%list = l)
    by apply firstn_skipn.
  split; [rewrite length_skipn; lia |].
  split.
  - exists (firstn (length l - 14) l). split; [symmetry; exact Hsplit |].
    rewrite length_firstn. lia.
  - split.
    + intro Hle. replace (length l - 14) with 0 by lia. reflexivity.
    + intro d0. destruct (skipn (length l - 14) l) as [| a tl] eqn:E.
      * assert (Hlen : length (skipn (length l - 14) l) = 0)
          by (rewrite E; reflexivity).
        rewrite length_skipn in Hlen.
        assert (Hnil : l = []) by (apply length_zero_iff_nil; lia).
        rewrite Hnil. reflexivity.
      * rewrite <- Hsplit.
        symmetry. apply last_app_nonempty. discriminate.
Qed.

Lemma request_volume_is_last_fourteen_witness :
  request_volume (summary_of 1 1 1) = daily_breakdown (summary_of 1 1 1).
Proof.
  destruct (request_volume_is_last_fourteen (summary_of 1 1 1))
    as [_ [_ [H _]]].
  apply H. cbn. lia.
Defined.

Lemma nth_error_map_indexed {A B : Type} (f : A -> nat -> B) (l : list A) :
  forall from i,
    nth_error (map_indexed f from l) i
    = option_map (fun a => f a (from + i)) (nth_error l i).
Proof.
  induction l as [| a l IH]; intros from i.
  - destruct i; reflexivity.
  - destruct i as [| i]; cbn.
    + rewrite Nat.add_0_r. reflexivity.
    + rewrite IH. rewrite Nat.add_succ_r. reflexivity.
Qed.

Lemma length_map_indexed {A B : Type} (f : A -> nat -> B) (l : list A) :
  forall from, length (map_indexed f from l) = length l.
Proof.
  induction l as [| a l IH]; intro from; cbn; [reflexivity |].
  rewrite IH. reflexivity.
Qed.

Lemma color_at_defined (index : nat) :
  exists c, color_at index = Some c /\ In c COLORS.
Proof.
  unfold color_at. cbn [COLORS length].
  pose proof (Nat.mod_upper_bound index 4 ltac:(discriminate)) as Hlt.
  destruct (index mod 4) as [| [| [| [| k]]]]; cbn;
    try (eexists; split; [reflexivity | cbn; tauto]).
  lia.
Qed.

Lemma color_at_period (index : nat) : color_at (index + 4) = color_at index.
Proof.
  unfold color_at. cbn [COLORS length].
  replace (index + 4) with (index + 1 * 4) by lia.
  rewrite Nat.Div0.mod_add. reflexivity.
Qed.

(** X14: the legend has one entry per provider, in order; entry [i] takes
    the colour [COLORS[i % 4]], which is always one of the four colours
    (never [undefined]), so with more than four providers entry [i + 4]
    repeats the colour of entry [i]. *)
Theorem legend_colours_cycle
    (N : float -> string) (data : SummaryData) :
  length (legend N data) = length (provider_breakdown data)
  /\ forall i row,
       nth_error (legend N data) i = Some row ->
       (exists provider,
          nth_error (provider_breakdown data) i = Some provider
          /\ legend_name row = Provider.provider provider)
       /\ swatch row = color_at i
       /\ (exists c, swatch row = Some c /\ In c COLORS)
       /\ forall row',
            nth_error (legend N data) (i + 4) = Some row' ->
            swatch row' = swatch row.
Proof.
  unfold legend. split; [apply length_map_indexed |].
  intros i row Hrow. rewrite nth_error_map_indexed in Hrow.
  destruct (nth_error (provider_breakdown data) i) as [p |] eqn:Hp;
    [| discriminate Hrow].
  cbn in Hrow. injection Hrow as <-. cbn [swatch legend_name].
  split; [exists p; auto |]. split; [reflexivity |].
  split; [apply color_at_defined |].
  intros row' Hrow'. rewrite nth_error_map_indexed in Hrow'.
  destruct (nth_error (provider_breakdown data) (i + 4)) as [p' |];
    [| discriminate Hrow'].
  cbn in Hrow'. injection Hrow' as <-. cbn [swatch].
  apply color_at_period.
Qed.

Lemma get_beyond_length (s : string) :
  forall i, String.length s <= i -> String.get i s = None.
Proof.
  induction s as [| c s IH]; intros i Hle.
  - destruct i; reflexivity.
  - destruct i as [| i]; cbn in *; [lia |]. apply IH. lia.
Qed.

Lemma get_within_length (s : string) :
  forall i, i < String.length s -> exists c, String.get i s = Some c.
Proof.
  induction s as [| c s IH]; intros i Hlt; cbn in Hlt; [lia |].
  destruct i as [| i]; cbn.
  - exists c. reflexivity.
  - apply IH. lia.
Qed.

(** X15: the avatar of a table row is always exactly one character.  For
    every user id with at least six characters it is the sixth character
    (index 5), whatever the id starts with; for every id of at most five
    characters, the empty id included, it is the letter U. *)
Theorem avatar_is_one_character (user_id : string) :
  String.length (avatar user_id) = 1
  /\ (forall c, String.get 5 user_id = Some c ->
                avatar user_id = String c EmptyString)
  /\ (5 < String.length user_id ->
      exists c, String.get 5 user_id = Some c
                /\ avatar user_id = String c EmptyString)
  /\ (String.length user_id <= 5 -> avatar user_id = "U")
  /\ forall c rest, avatar ("user_" ++ String c rest) = String c EmptyString.
Proof.
  assert (Hget : forall c, String.get 5 user_id = Some c ->
                           avatar user_id = String c EmptyString)
    by (intros c Hc; unfold avatar, charAt; rewrite Hc; reflexivity).
  split; [| split; [exact Hget | split; [| split]]].
  - unfold avatar, charAt. destruct (String.get 5 user_id); reflexivity.
  - intro Hlt. destruct (get_within_length user_id 5 Hlt) as [c Hc].
    exists c. split; [exact Hc | exact (Hget c Hc)].
  - intro Hle. unfold avatar, charAt.
    rewrite (get_beyond_length user_id 5 Hle). reflexivity.
  - intros c rest. reflexivity.
Qed.

Lemma avatar_is_one_character_witness :
  avatar "alice7" = "7" /\ avatar "bob" = "U".
Proof.
  split.
  - destruct (avatar_is_one_character "alice7") as [_ [H _]].
    apply (H "7"%char). reflexivity.
  - destruct (avatar_is_one_character "bob") as [_ [_ [_ [H _]]]].
    apply H. cbn. lia.
Defined.

(** X16: for a user with no requests the [Avg/Request] cell never shows a
    number: the division by zero gives NaN or an infinity, without an
    exception, and the cell reads [$NaN], [$Infinity] or [$-Infinity]. *)
Theorem zero_request_user_has_no_average
    (N L : float -> string) (user : User.t) :
  PrimFloat.eqb (User.requests user) 0 = true ->
  row_avg (user_row N L user) = "$NaN"
  \/ row_avg (user_row N L user) = "$Infinity"
  \/ row_avg (user_row N L user) = "$-Infinity".
Proof.
  intro Hz. unfold user_row, user_avg_per_request, toFixed. cbn [row_avg].
  rewrite FloatAxioms.div_spec.
  destruct (float_eqb_zero _ Hz) as [-> | ->];
    destruct (Prim2SF (User.cost user)) as [[|] | [|] | | [|] m e]; cbn; auto.
Qed.

Lemma zero_request_user_has_no_average_witness :
  row_avg (user_row exponential_stub exponential_stub
             {| User.user_id := "user_9"; User.cost := 3; User.requests := 0 |})
  = "$NaN"
  \/ row_avg (user_row exponential_stub exponential_stub
                {| User.user_id := "user_9"; User.cost := 3; User.requests := 0 |})
     = "$Infinity"
  \/ row_avg (user_row exponential_stub exponential_stub
                {| User.user_id := "user_9"; User.cost := 3; User.requests := 0 |})
     = "$-Infinity".
Proof.
  apply (zero_request_user_has_no_average exponential_stub exponential_stub).
  reflexivity.
Defined.

Lemma append_same_prefix (base x y : string) :
  (base ++ x)%string = (base ++ y)%string -> x = y.
Proof.
  induction base as [| c base IH]; cbn; intro H; [exact H |].
  injection H as H. exact (IH H).
Qed.

(** X17: the base URL is never empty.  When the environment variable is
    unset or empty the requests go to [http://localhost:8000]; a non-empty
    value is used as it is, with the path appended; and the summary URL and
    the demo-data URL differ under every configuration. *)
Theorem api_url_fallback (env : option string) :
  string_truthy (API_URL env) = true
  /\ (match env with Some url => string_truthy url | None => false end = false ->
      endpoint_url env GET_summary = "http://localhost:8000/v1/summary"
      /\ endpoint_url env POST_demo_data = "http://localhost:8000/v1/demo-data")
  /\ (forall url, env = Some url -> string_truthy url = true ->
      endpoint_url env GET_summary = (url ++ "/v1/summary")%string
      /\ endpoint_url env POST_demo_data = (url ++ "/v1/demo-data")%string)
  /\ endpoint_url env GET_summary <> endpoint_url env POST_demo_data.
Proof.
  split; [| split; [| split]].
  - unfold API_URL. destruct env as [url |]; [| reflexivity].
    destruct (string_truthy url) eqn:E; [exact E | reflexivity].
  - unfold endpoint_url, API_URL. destruct env as [url |]; [| auto].
    intro Hf. rewrite Hf. auto.
  - intros url -> Ht. unfold endpoint_url, API_URL. rewrite Ht. auto.
  - unfold endpoint_url. intro H. apply append_same_prefix in H.
    discriminate H.
Qed.

Lemma api_url_fallback_witness :
  endpoint_url (Some "https://api.example.com") GET_summary
  = "https://api.example.com/v1/summary"
  /\ endpoint_url (Some "https://api.example.com") POST_demo_data
     = "https://api.example.com/v1/demo-data".
Proof.
  destruct (api_url_fallback (Some "https://api.example.com")) as [_ [_ [H _]]].
  apply (H "https://api.example.com"); reflexivity.
Defined.
